(** * Key-value store record upload ([putRecord]) of the API client

    A shallow embedding of [putRecord] from the key-value-stores module,
    with the constants it uses, and the properties of its upload protocol:
    which requests are handed to the HTTP transport, in which order, and
    when the call fails.  The single-request operations of the module and
    of the acts module follow, with the request each one builds and the
    handlers it chains on it. *)

From Stdlib Require Import ZArith List String Ascii Bool Lia.
From Stdlib Require Import Init.Byte.
Import ListNotations.
Open Scope string_scope.
Open Scope Z_scope.

#[local] Set Warnings "-register-all".

(** ** JavaScript values *)

(** The values that reach [putRecord]: the fields of its option bag and the
    responses of the transport.  An object is an association list of its own
    properties, a Buffer is its byte sequence.  Numbers only occur as data
    inside responses; no arithmetic is done on them. *)
Inductive value : Type :=
| VUndefined
| VNull
| VBool (b : bool)
| VNumber (n : Z)
| VString (s : string)
| VBuffer (bytes : list byte)
| VObject (props : list (string * value)).

(** The failures a call can end with. *)
Inductive error : Type :=
| InvalidParameter (name type : string)
| TypeError
| TransportFailure (detail : value).

(** A settled promise. *)
Inductive outcome (A : Type) : Type :=
| Resolved (a : A)
| Rejected (e : error).
Arguments Resolved {A} a.
Arguments Rejected {A} e.

(** What a call of an API function yields: an exception thrown before the
    function returns, or the promise it returns. *)
Inductive completion : Type :=
| Throw (e : error)
| Promise (o : outcome value).

(** ** Requests *)

(** The request descriptor handed to the transport.  [req_body] is [None]
    where the source sets no [body] property. *)
Record request : Type := mkRequest {
  req_url : value;
  req_method : string;
  req_body : option (list byte);
  req_json : bool;
  req_headers : list (string * value)
}.

(** [Object.assign({}, requestOpts, { url: u })]: a copy whose [url] is [u],
    also when [u] is [undefined]. *)
Definition assign_url (r : request) (u : value) : request :=
  {| req_url := u;
     req_method := req_method r;
     req_body := req_body r;
     req_json := req_json r;
     req_headers := req_headers r |}.

Fixpoint lookup {A : Type} (k : string) (l : list (string * A)) : option A :=
  match l with
  | [] => None
  | (k', v) :: l' => if String.eqb k k' then Some v else lookup k l'
  end.

(** Property read [v.k] for the two names read by [putRecord] ([data] and
    [signedUrl]), which no primitive wrapper defines: reading from
    [undefined] or [null] throws a TypeError, an object gives its own
    property or [undefined], every other value gives [undefined]. *)
Definition get_prop (v : value) (k : string) : outcome value :=
  match v with
  | VUndefined | VNull => Rejected TypeError
  | VObject props =>
      match lookup k props with
      | Some x => Resolved x
      | None => Resolved VUndefined
      end
  | _ => Resolved VUndefined
  end.

(** [response.data.signedUrl]: two property reads, the second only when the
    first did not throw. *)
Definition signedUrl_of (response : value) : outcome value :=
  match get_prop response "data" with
  | Resolved data => get_prop data "signedUrl"
  | Rejected e => Rejected e
  end.

(** ** The option bag *)

(** The fields [putRecord] reads from [options]; an absent field is
    [VUndefined].  ([options.promise], the Promise constructor handed to the
    compression helper, carries no data.) *)
Record Options : Type := mkOptions {
  baseUrl : value;
  storeId : value;
  key : value;
  body : value;
  contentType : value
}.

(** ** Constants *)

Definition BASE_PATH : string := "/v2/key-value-stores".
Definition SIGNED_URL_UPLOAD_MIN_BYTESIZE : Z := 1024 * 256.
Definition DEFAULT_CONTENT_TYPE : string := "text/plain; charset=utf-8".

(** ** Parameter validation *)

Definition nonempty_string (v : value) : bool :=
  match v with
  | VString s => negb (String.eqb s "")
  | _ => false
  end.

Definition nonempty_buffer (v : value) : bool :=
  match v with
  | VBuffer (_ :: _) => true
  | _ => false
  end.

(** Modelled from the spec: [utils.checkParamOrThrow] is not among the
    sources; only its calls are.  Following the spec, a parameter that is
    missing, empty or of the wrong shape is an [InvalidParameter] failure:
    the descriptor ['String'] asks for a non-empty string and
    ['Buffer | String'] for a non-empty byte sequence or string.  These are
    the two descriptors [putRecord] uses; no value fits any other.  [None]
    means the check passed, [Some e] that [e] is thrown. *)
Definition checkParamOrThrow (v : value) (name type : string) : option error :=
  let ok :=
    if String.eqb type "String" then nonempty_string v
    else if String.eqb type "Buffer | String"
         then nonempty_buffer v || nonempty_string v
         else false in
  if ok then None else Some (InvalidParameter name type).

(** The string of a value in a concatenation ['' + a + b].  [putRecord]
    concatenates only [baseUrl], [storeId] and [key], after their ['String']
    checks, so only the first case is ever reached (lemma
    [validate_strings]). *)
Definition str (v : value) : string :=
  match v with
  | VString s => s
  | _ => ""
  end.

(** ** Effects *)

(** What a call does to the outside, in order: a compression, or a request
    handed to the transport together with how that request settled. *)
Inductive event : Type :=
| EGzip (input : value)
| ERequest (r : request) (o : outcome value).

Fixpoint requests (l : list event) : list request :=
  match l with
  | [] => []
  | EGzip _ :: l' => requests l'
  | ERequest r _ :: l' => r :: requests l'
  end.

Section PutRecord.

(** The remote side: some state, and a transport that answers a request
    with a response or a failure and moves that state on. *)
Variable World : Type.
Variable transport : request -> World -> outcome value * World.

(** The compression capability: the body to its compressed bytes. *)
Variable gzip : value -> list byte.

Record state : Type := mkState {
  world : World;
  log : list event
}.

(** A promise-returning computation: it runs from a state and settles. *)
Definition promise (A : Type) : Type := state -> outcome A * state.

Definition settle {A : Type} (o : outcome A) : promise A :=
  fun st => (o, st).

(** [p.then(f)]: [f] runs only when [p] resolves; a rejection is passed
    on and [f] is skipped. *)
Definition and_then {A B : Type} (p : promise A) (f : A -> promise B)
  : promise B :=
  fun st =>
    match p st with
    | (Resolved a, st') => f a st'
    | (Rejected e, st') => (Rejected e, st')
    end.

Notation "x <- p ;; q" := (and_then p (fun x => q))
  (at level 61, p at next level, right associativity).

(** The [requestPromise] argument of [putRecord]: the transport, with
    every request it is handed recorded in the log. *)
Definition requestPromise (r : request) : promise value :=
  fun st =>
    let (o, w) := transport r (world st) in
    (o, {| world := w; log := log st ++ [ERequest r o] |}).

(** Modelled from the spec: [utils.gzipPromise] is not among the sources;
    only its call is.  The spec gives compression as a function from the
    body to the compressed bytes, so the promise resolves with [gzip b];
    the compression is recorded in the log. *)
Definition gzipPromise (b : value) : promise (list byte) :=
  fun st =>
    (Resolved (gzip b),
     {| world := world st; log := log st ++ [EGzip b] |}).

(** ** [putRecord] *)

(** [contentType = _options$contentType === undefined ? '...' : ...] *)
Definition contentType_of (options : Options) : value :=
  match contentType options with
  | VUndefined => VString DEFAULT_CONTENT_TYPE
  | v => v
  end.

(** The five checks, in the order of the source; the first that fails
    throws. *)
Definition validate (options : Options) : option error :=
  match checkParamOrThrow (baseUrl options) "baseUrl" "String" with
  | Some e => Some e
  | None =>
  match checkParamOrThrow (storeId options) "storeId" "String" with
  | Some e => Some e
  | None =>
  match checkParamOrThrow (key options) "key" "String" with
  | Some e => Some e
  | None =>
  match checkParamOrThrow (contentType_of options) "contentType" "String" with
  | Some e => Some e
  | None => checkParamOrThrow (body options) "body" "Buffer | String"
  end end end end.

(** ['' + baseUrl + BASE_PATH + '/' + storeId + '/records/' + key] *)
Definition record_url (options : Options) : string :=
  "" ++ str (baseUrl options) ++ BASE_PATH ++ "/" ++ str (storeId options)
     ++ "/records/" ++ str (key options).

Definition requestOpts (options : Options) (gzipedBody : list byte)
  : request :=
  {| req_url := VString (record_url options);
     req_method := "PUT";
     req_body := Some gzipedBody;
     req_json := false;
     req_headers := [("Content-Type", contentType_of options);
                     ("Content-Encoding", VString "gzip")] |}.

(** ['' + baseUrl + BASE_PATH + '/' + storeId + '/records/' + key
        + '/direct-upload-url'] *)
Definition direct_upload_url (options : Options) : string :=
  "" ++ str (baseUrl options) ++ BASE_PATH ++ "/" ++ str (storeId options)
     ++ "/records/" ++ str (key options) ++ "/direct-upload-url".

Definition signedUrlRequest (options : Options) : request :=
  {| req_url := VString (direct_upload_url options);
     req_method := "GET";
     req_body := None;
     req_json := true;
     req_headers := [("Content-Type", contentType_of options)] |}.

(** The callback of the signed-URL request:
    [response.data.signedUrl], then the PUT to that URL. *)
Definition uploadToSignedUrl (options : Options) (gzipedBody : list byte)
    (response : value) : promise value :=
  signedUrl <- settle (signedUrl_of response) ;;
  let s3RequestOpts := assign_url (requestOpts options gzipedBody) signedUrl in
  requestPromise s3RequestOpts.

(** The callback of the compression. *)
Definition upload (options : Options) (gzipedBody : list byte)
  : promise value :=
  if Z.of_nat (List.length gzipedBody) <? SIGNED_URL_UPLOAD_MIN_BYTESIZE
  then requestPromise (requestOpts options gzipedBody)
  else
    response <- requestPromise (signedUrlRequest options) ;;
    uploadToSignedUrl options gzipedBody response.

Definition putRecord (options : Options) (st : state) : completion * state :=
  match validate options with
  | Some e => (Throw e, st)
  | None =>
      let (o, st') :=
        (gzipedBody <- gzipPromise (body options) ;;
         upload options gzipedBody) st in
      (Promise o, st')
  end.

End PutRecord.

Arguments state World : clear implicits.
Arguments mkState {World} world log.
Arguments world {World} s.
Arguments log {World} s.
Arguments requestPromise {World} transport r st.
Arguments gzipPromise {World} gzip b st.
Arguments upload {World} transport options gzipedBody st.
Arguments uploadToSignedUrl {World} transport options gzipedBody response st.
Arguments putRecord {World} transport gzip options st.

(** ** The effects of one call *)

(** The events a call adds to the log, and the requests among them. *)
Definition events {World : Type} (transport : request -> World -> outcome value * World)
    (gzip : value -> list byte) (options : Options) (st : state World)
  : list event :=
  skipn (List.length (log st)) (log (snd (putRecord transport gzip options st))).

Definition calls {World : Type} (transport : request -> World -> outcome value * World)
    (gzip : value -> list byte) (options : Options) (st : state World)
  : list request :=
  requests (events transport gzip options st).

(** A parameter that is missing ([undefined] or [null]) or empty. *)
Definition missing_or_empty (v : value) : bool :=
  match v with
  | VUndefined | VNull | VString "" | VBuffer [] => true
  | _ => false
  end.

Definition is_string (v : value) : bool :=
  match v with
  | VString _ => true
  | _ => false
  end.

(** The traces a call can leave: nothing, the compression and the direct
    PUT, the compression and the signed-URL request alone (failed, or
    answered with a response from which no URL could be read), or these two
    and the PUT to the URL read. *)
Inductive trace_shape (gzip : value -> list byte) (options : Options)
  : list event -> Prop :=
| shape_invalid :
    trace_shape gzip options []
| shape_direct o :
    trace_shape gzip options
      [EGzip (body options);
       ERequest (requestOpts options (gzip (body options))) o]
| shape_get_failed e :
    trace_shape gzip options
      [EGzip (body options);
       ERequest (signedUrlRequest options) (Rejected e)]
| shape_unreadable response :
    trace_shape gzip options
      [EGzip (body options);
       ERequest (signedUrlRequest options) (Resolved response)]
| shape_signed response u o :
    trace_shape gzip options
      [EGzip (body options);
       ERequest (signedUrlRequest options) (Resolved response);
       ERequest (assign_url (requestOpts options (gzip (body options))) u) o].

(** ** Sample collaborators and calls *)

(** The remote state of the samples: the number of requests served. *)
Definition served : Type := nat.

Definition is_get (r : request) : bool := String.eqb (req_method r) "GET".

(** A service that answers the signed-URL request with a full envelope and
    accepts every upload. *)
Definition accepting_transport (r : request) (w : served)
  : outcome value * served :=
  if is_get r
  then (Resolved (VObject [("data",
          VObject [("signedUrl", VString "https://storage.example/upload")])]),
        S w)
  else (Resolved (VString ""), S w).

(** A service that is down: every request fails. *)
Definition failing_transport (r : request) (w : served)
  : outcome value * served :=
  (Rejected (TransportFailure (VNumber 503)), S w).

(** A service whose signed-URL answer has a [data] object without a
    [signedUrl] in it, and which accepts whatever is then sent to it. *)
Definition bare_data_transport (r : request) (w : served)
  : outcome value * served :=
  if is_get r
  then (Resolved (VObject [("data", VObject [])]), S w)
  else (Resolved (VString "stored"), S w).

(** A service whose signed-URL answer has no [data] at all. *)
Definition no_data_transport (r : request) (w : served)
  : outcome value * served :=
  if is_get r
  then (Resolved (VObject []), S w)
  else (Resolved (VString "stored"), S w).

(** A compression to three bytes, and one to exactly 262144 bytes. *)
Definition gzip_small (b : value) : list byte := [x1f; x8b; x08].
Definition gzip_boundary (b : value) : list byte :=
  repeat x00 (Z.to_nat 262144).

Definition fresh : state served := mkState 0%nat [].

(** [putRecord({ storeId: 'store1', key: 'foo', body: 'bar' })] *)
Definition foo_bar : Options :=
  {| baseUrl := VString "https://api.example";
     storeId := VString "store1";
     key := VString "foo";
     body := VString "bar";
     contentType := VUndefined |}.

Definition with_contentType (o : Options) (c : value) : Options :=
  {| baseUrl := baseUrl o; storeId := storeId o; key := key o;
     body := body o; contentType := c |}.

Definition with_storeId (o : Options) (v : value) : Options :=
  {| baseUrl := baseUrl o; storeId := v; key := key o;
     body := body o; contentType := contentType o |}.

Definition with_baseUrl (o : Options) (v : value) : Options :=
  {| baseUrl := v; storeId := storeId o; key := key o;
     body := body o; contentType := contentType o |}.

(** ** The other operations of the client *)

(** An option bag, a query or a request descriptor as the JavaScript object
    it is: its own properties, in insertion order; the first binding of a
    name is the property. *)
Definition bag : Type := list (string * value).

(** [options.k]: [undefined] when the property is absent. *)
Definition field (options : bag) (k : string) : value :=
  match lookup k options with
  | Some v => v
  | None => VUndefined
  end.

(** [if (v)]: [undefined], [null], [false], [0] and [''] are falsy. *)
Definition truthy (v : value) : bool :=
  match v with
  | VUndefined | VNull => false
  | VBool b => b
  | VNumber n => negb (n =? 0)
  | VString s => negb (String.eqb s "")
  | VBuffer _ | VObject _ => true
  end.

(** [o.k = v]: the property is overwritten in place, or added last. *)
Fixpoint set_prop (k : string) (v : value) (o : bag) : bag :=
  match o with
  | [] => [(k, v)]
  | (k', v') :: o' =>
      if String.eqb k k' then (k', v) :: o' else (k', v') :: set_prop k v o'
  end.

(** [if (c) o.k = v;] *)
Definition set_if (c : value) (k : string) (v : value) (o : bag) : bag :=
  if truthy c then set_prop k v o else o.

(** A handler chained on the promise of the request: [.then(f)] or
    [.catch(g)]. *)
Inductive handler : Type :=
| Then (f : value -> outcome value)
| Catch (g : error -> outcome value).

Definition apply_handler (o : outcome value) (h : handler) : outcome value :=
  match h, o with
  | Then f, Resolved v => f v
  | Then _, Rejected e => Rejected e
  | Catch _, Resolved v => Resolved v
  | Catch g, Rejected e => g e
  end.

(** How the promise returned to the caller settles, given how the request
    settled. *)
Definition settle_through (hs : list handler) (answer : outcome value)
  : outcome value :=
  fold_left apply_handler hs answer.

(** What a single-request operation does: it throws before returning, or
    hands one descriptor to [requestPromise] and returns that promise with
    handlers chained on it. *)
Inductive call : Type :=
| Thrown (e : error)
| Requested (descriptor : bag) (handlers : list handler).

(** A [checkParamOrThrow] statement followed by the rest of the function. *)
Definition guard (checked : option error) (rest : call) : call :=
  match checked with
  | Some e => Thrown e
  | None => rest
  end.

(** An expression that may throw, followed by the rest of the function. *)
Definition bind_throw (x : outcome value) (rest : value -> call) : call :=
  match x with
  | Resolved v => rest v
  | Rejected e => Thrown e
  end.

Definition bag_of_Options (o : Options) : bag :=
  [("baseUrl", baseUrl o); ("storeId", storeId o); ("key", key o);
   ("body", body o); ("contentType", contentType o)].

Section Stores.

(** The helpers of [utils] that these operations call are not among the
    sources; the operations are modelled for every such helper.  [check] is
    [checkParamOrThrow] ([None]: the check passed); the URL concatenations
    use [str], which is the concatenated text whenever ['String'] admits
    strings only. *)
Variable check : value -> string -> string -> option error.
Variable pluckData : value -> outcome value.
Variable catchNotFoundOrThrow : error -> outcome value.
Variable parseBody : value -> value -> outcome value.

Definition getOrCreateStore (options : bag) : call :=
  let baseUrl := field options "baseUrl" in
  let token := field options "token" in
  let storeName := field options "storeName" in
  guard (check baseUrl "baseUrl" "String") (
  guard (check token "token" "String") (
  guard (check storeName "storeName" "String") (
  Requested
    [("url", VString ("" ++ str baseUrl ++ BASE_PATH));
     ("json", VBool true);
     ("method", VString "POST");
     ("qs", VObject [("name", storeName); ("token", token)])]
    [Then pluckData]))).

Definition listStores_query (options : bag) : bag :=
  let token := field options "token" in
  let offset := field options "offset" in
  let limit := field options "limit" in
  let desc := field options "desc" in
  let unnamed := field options "unnamed" in
  let query := [("token", token)] in
  let query := set_if limit "limit" limit query in
  let query := set_if offset "offset" offset query in
  let query := set_if desc "desc" (VNumber 1) query in
  let query := set_if unnamed "unnamed" (VNumber 1) query in
  query.

Definition listStores (options : bag) : call :=
  let baseUrl := field options "baseUrl" in
  let token := field options "token" in
  let offset := field options "offset" in
  let limit := field options "limit" in
  let desc := field options "desc" in
  let unnamed := field options "unnamed" in
  guard (check baseUrl "baseUrl" "String") (
  guard (check token "token" "String") (
  guard (check limit "limit" "Maybe Number") (
  guard (check offset "offset" "Maybe Number") (
  guard (check desc "desc" "Maybe Boolean") (
  guard (check unnamed "unnamed" "Maybe Boolean") (
  Requested
    [("url", VString ("" ++ str baseUrl ++ BASE_PATH));
     ("json", VBool true);
     ("method", VString "GET");
     ("qs", VObject (listStores_query options))]
    [Then pluckData])))))).

Definition getStore (options : bag) : call :=
  let baseUrl := field options "baseUrl" in
  let storeId := field options "storeId" in
  guard (check baseUrl "baseUrl" "String") (
  guard (check storeId "storeId" "String") (
  Requested
    [("url", VString ("" ++ str baseUrl ++ BASE_PATH ++ "/" ++ str storeId));
     ("json", VBool true);
     ("method", VString "GET")]
    [Then pluckData; Catch catchNotFoundOrThrow])).

Definition deleteStore (options : bag) : call :=
  let baseUrl := field options "baseUrl" in
  let storeId := field options "storeId" in
  guard (check baseUrl "baseUrl" "String") (
  guard (check storeId "storeId" "String") (
  Requested
    [("url", VString ("" ++ str baseUrl ++ BASE_PATH ++ "/" ++ str storeId));
     ("json", VBool true);
     ("method", VString "DELETE")]
    [])).

(** The [parseResponse] callback of [getRecord].  The names it reads
    ([body], [headers], [content-type]) are defined by no primitive
    wrapper, so [get_prop] reads them as it reads [data]. *)
Definition parseResponse (disableBodyParser : value) (response : value)
  : outcome value :=
  match get_prop response "body" with
  | Rejected e => Rejected e
  | Resolved responseBody =>
  match get_prop response "headers" with
  | Rejected e => Rejected e
  | Resolved headers =>
  match get_prop headers "content-type" with
  | Rejected e => Rejected e
  | Resolved contentType =>
  match (if truthy disableBodyParser then Resolved responseBody
         else parseBody responseBody contentType) with
  | Rejected e => Rejected e
  | Resolved body =>
      Resolved (VObject [("contentType", contentType); ("body", body)])
  end end end end.

Definition getRecord (options : bag) : call :=
  let baseUrl := field options "baseUrl" in
  let storeId := field options "storeId" in
  let key := field options "key" in
  let disableBodyParser := field options "disableBodyParser" in
  let disableRedirect := field options "disableRedirect" in
  guard (check baseUrl "baseUrl" "String") (
  guard (check storeId "storeId" "String") (
  guard (check key "key" "String") (
  guard (check disableBodyParser "disableBodyParser" "Maybe Boolean") (
  guard (check disableRedirect "disableRedirect" "Maybe Boolean") (
  let qs := set_if disableRedirect "disableRedirect" (VNumber 1) [] in
  Requested
    [("url", VString ("" ++ str baseUrl ++ BASE_PATH ++ "/" ++ str storeId
                         ++ "/records/" ++ str key));
     ("method", VString "GET");
     ("json", VBool false);
     ("qs", VObject qs);
     ("gzip", VBool true);
     ("resolveWithResponse", VBool true);
     ("encoding", VNull)]
    [Then (parseResponse disableBodyParser);
     Catch catchNotFoundOrThrow]))))).

Definition deleteRecord (options : bag) : call :=
  let baseUrl := field options "baseUrl" in
  let storeId := field options "storeId" in
  let key := field options "key" in
  guard (check baseUrl "baseUrl" "String") (
  guard (check storeId "storeId" "String") (
  guard (check key "key" "String") (
  Requested
    [("url", VString ("" ++ str baseUrl ++ BASE_PATH ++ "/" ++ str storeId
                         ++ "/records/" ++ str key));
     ("json", VBool true);
     ("method", VString "DELETE")]
    []))).

Definition listKeys_query (options : bag) : bag :=
  let exclusiveStartKey := field options "exclusiveStartKey" in
  let limit := field options "limit" in
  let query := [] in
  let query := set_if exclusiveStartKey "exclusiveStartKey" exclusiveStartKey
                 query in
  let query := set_if limit "limit" limit query in
  query.

Definition listKeys (options : bag) : call :=
  let baseUrl := field options "baseUrl" in
  let storeId := field options "storeId" in
  let exclusiveStartKey := field options "exclusiveStartKey" in
  let limit := field options "limit" in
  guard (check baseUrl "baseUrl" "String") (
  guard (check storeId "storeId" "String") (
  guard (check exclusiveStartKey "exclusiveStartKey" "Maybe String") (
  guard (check limit "limit" "Maybe Number") (
  Requested
    [("url", VString ("" ++ str baseUrl ++ BASE_PATH ++ "/" ++ str storeId
                         ++ "/keys"));
     ("json", VBool true);
     ("method", VString "GET");
     ("qs", VObject (listKeys_query options))]
    [Then pluckData])))).

End Stores.

(** ** The acts module *)

Module Acts.

Definition BASE_PATH : string := "/v2/acts".

(** [s.replace('/', '~')] with a string pattern: only the first ['/'] is
    replaced. *)
Fixpoint replace_first_slash (s : string) : string :=
  match s with
  | EmptyString => EmptyString
  | String c s' =>
      if Ascii.eqb c "/" then String "~" s'
      else String c (replace_first_slash s')
  end.

(** [replaceSlashWithTilde(str)]: calling [.replace] on anything but a
    string throws a TypeError ([undefined] and [null] have no properties,
    the other values no [replace] method). *)
Definition replaceSlashWithTilde (v : value) : outcome value :=
  match v with
  | VString s => Resolved (VString (replace_first_slash s))
  | _ => Rejected TypeError
  end.

Fixpoint count_slash (s : string) : nat :=
  match s with
  | EmptyString => 0%nat
  | String c s' => ((if Ascii.eqb c "/" then 1 else 0) + count_slash s')%nat
  end.

(** [!actId && act.id ? act.id : actId]: [act.id] is read only when
    [actId] is falsy, and reading it from [undefined] or [null] throws
    ([id] is a name no primitive wrapper defines, so [get_prop] reads it). *)
Definition updateAct_id (actId act : value) : outcome value :=
  if truthy actId then Resolved actId
  else
    match get_prop act "id" with
    | Rejected e => Rejected e
    | Resolved id => if truthy id then get_prop act "id" else Resolved actId
    end.

Section Operations.

Variable check : value -> string -> string -> option error.
Variable pluckData : value -> outcome value.
Variable catchNotFoundOrThrow : error -> outcome value.

(** [JSON.parse] and underscore's [_.omit(obj, key)]. *)
Variable JSON_parse : value -> outcome value.
Variable omit : value -> string -> value.

Definition getAct (options : bag) : call :=
  let baseUrl := field options "baseUrl" in
  let token := field options "token" in
  let actId := field options "actId" in
  guard (check baseUrl "baseUrl" "String") (
  guard (check actId "actId" "String") (
  guard (check token "token" "String") (
  bind_throw (replaceSlashWithTilde actId) (fun safeActId =>
  Requested
    [("url", VString ("" ++ str baseUrl ++ BASE_PATH ++ "/" ++ str safeActId));
     ("json", VBool true);
     ("method", VString "GET");
     ("qs", VObject [("token", token)])]
    [Then pluckData; Catch catchNotFoundOrThrow])))).

Definition deleteAct (options : bag) : call :=
  let baseUrl := field options "baseUrl" in
  let token := field options "token" in
  let actId := field options "actId" in
  guard (check baseUrl "baseUrl" "String") (
  guard (check actId "actId" "String") (
  guard (check token "token" "String") (
  bind_throw (replaceSlashWithTilde actId) (fun safeActId =>
  Requested
    [("url", VString ("" ++ str baseUrl ++ BASE_PATH ++ "/" ++ str safeActId));
     ("json", VBool true);
     ("method", VString "DELETE");
     ("qs", VObject [("token", token)])]
    [])))).

Definition updateAct (options : bag) : call :=
  let baseUrl := field options "baseUrl" in
  let token := field options "token" in
  let actId := field options "actId" in
  let act := field options "act" in
  bind_throw (updateAct_id actId act) (fun id =>
  bind_throw (replaceSlashWithTilde id) (fun safeActId =>
  guard (check baseUrl "baseUrl" "String") (
  guard (check token "token" "String") (
  guard (check safeActId "actId" "String") (
  guard (check act "act" "Object") (
  Requested
    [("url", VString ("" ++ str baseUrl ++ BASE_PATH ++ "/" ++ str safeActId));
     ("json", VBool true);
     ("method", VString "PUT");
     ("qs", VObject [("token", token)]);
     ("body", omit act "id")]
    [Then pluckData])))))).

Definition runAct_query (options : bag) : bag :=
  let token := field options "token" in
  let waitForFinish := field options "waitForFinish" in
  let timeout := field options "timeout" in
  let memory := field options "memory" in
  let build := field options "build" in
  let query := [] in
  let query := set_if waitForFinish "waitForFinish" waitForFinish query in
  let query := set_if timeout "timeout" timeout query in
  let query := set_if memory "memory" memory query in
  let query := set_if build "build" build query in
  let query := set_if token "token" token query in
  query.

Definition runAct (options : bag) : call :=
  let baseUrl := field options "baseUrl" in
  let token := field options "token" in
  let actId := field options "actId" in
  let contentType := field options "contentType" in
  let body := field options "body" in
  let waitForFinish := field options "waitForFinish" in
  let timeout := field options "timeout" in
  let memory := field options "memory" in
  let build := field options "build" in
  guard (check baseUrl "baseUrl" "String") (
  guard (check actId "actId" "String") (
  guard (check token "token" "Maybe String") (
  guard (check contentType "contentType" "Maybe String") (
  guard (check waitForFinish "waitForFinish" "Maybe Number") (
  guard (check timeout "timeout" "Maybe Number") (
  guard (check memory "memory" "Maybe Number") (
  guard (check build "build" "Maybe String") (
  bind_throw (replaceSlashWithTilde actId) (fun safeActId =>
  let opts :=
    [("url", VString ("" ++ str baseUrl ++ BASE_PATH ++ "/" ++ str safeActId
                         ++ "/runs"));
     ("method", VString "POST");
     ("qs", VObject (runAct_query options))] in
  let opts :=
    set_if contentType "headers" (VObject [("Content-Type", contentType)])
      opts in
  let handlers := [Then JSON_parse; Then pluckData] in
  if truthy body
  then guard (check body "body" "Buffer | String")
         (Requested (set_prop "body" body opts) handlers)
  else Requested opts handlers))))))))).

End Operations.

End Acts.

(** ** Sample helpers and option bags *)

Definition is_missing (v : value) : bool :=
  match v with
  | VUndefined | VNull => true
  | _ => false
  end.

(** A checker for the samples: [checkParamOrThrow] on its two descriptors,
    and a check of the type on the others. *)
Definition sample_check (v : value) (name type : string) : option error :=
  if String.eqb type "String" || String.eqb type "Buffer | String"
  then checkParamOrThrow v name type
  else
    let ok :=
      if String.eqb type "Maybe String" then is_missing v || is_string v
      else if String.eqb type "Maybe Number"
      then is_missing v || match v with VNumber _ => true | _ => false end
      else if String.eqb type "Maybe Boolean"
      then is_missing v || match v with VBool _ => true | _ => false end
      else if String.eqb type "Object"
      then match v with VObject _ => true | _ => false end
      else false in
    if ok then None else Some (InvalidParameter name type).

(** A checker that rejects everything. *)
Definition strict_check (v : value) (name type : string) : option error :=
  Some (InvalidParameter name type).

(** Unwrapping of the [{ data: ... }] envelope, and a not-found handler
    that resolves with [null], for the samples. *)
Definition sample_pluckData (response : value) : outcome value :=
  get_prop response "data".

Definition sample_catchNotFound (e : error) : outcome value :=
  Resolved VNull.

Definition sample_parseBody (b ct : value) : outcome value :=
  Rejected TypeError.

(** [listStores({ token, limit: 0, offset: 20, desc: true })] *)
Definition page_options : bag :=
  [("baseUrl", VString "https://api.example");
   ("token", VString "secret");
   ("limit", VNumber 0);
   ("offset", VNumber 20);
   ("desc", VBool true)].

(** [listKeys({ storeId: 'store1', token, exclusiveStartKey: '' })] *)
Definition keys_options : bag :=
  [("baseUrl", VString "https://api.example");
   ("storeId", VString "store1");
   ("token", VString "secret");
   ("exclusiveStartKey", VString "");
   ("limit", VNumber 10)].

(** [getRecord({ storeId: 'store1', key: 'foo', disableBodyParser: true })] *)
Definition raw_record_options : bag :=
  [("baseUrl", VString "https://api.example");
   ("storeId", VString "store1");
   ("key", VString "foo");
   ("disableBodyParser", VBool true)].

Definition record_response : value :=
  VObject [("body", VBuffer [x62; x61; x72]);
           ("headers", VObject [("content-type", VString "text/plain")])].

(** [updateAct({ token, act: { name: 'x' } })]: no [actId], no [act.id]. *)
Definition update_without_id : bag :=
  [("baseUrl", VString "https://api.example");
   ("token", VString "secret");
   ("act", VObject [("name", VString "x")])].

(** [getAct({ token, actId: 'user/my-act' })] *)
Definition act_options : bag :=
  [("baseUrl", VString "https://api.example");
   ("token", VString "secret");
   ("actId", VString "user/my-act")].

(** [runAct({ actId: 'user/my-act', body: '' })] *)
Definition run_options : bag :=
  [("baseUrl", VString "https://api.example");
   ("actId", VString "user/my-act");
   ("body", VString "")].

(** ** General facts about the embedding *)

Lemma skipn_length_app {A : Type} (l l' : list A) :
  skipn (List.length l) (l ++ l') = l'.
Proof.
  induction l as [|a l IH]; simpl; [reflexivity | exact IH].
Qed.

Lemma checkParamOrThrow_String (v : value) (name : string) :
  checkParamOrThrow v name "String" = None ->
  exists s, v = VString s /\ s <> "".
Proof.
  unfold checkParamOrThrow; simpl.
  destruct v; simpl; try discriminate.
  destruct (String.eqb s "") eqn:E; simpl; try discriminate.
  intros _. exists s. split; [reflexivity|].
  intros ->. discriminate.
Qed.

Lemma checkParamOrThrow_String_fails (v : value) (name : string) :
  (forall s, v = VString s -> s = "") ->
  checkParamOrThrow v name "String" = Some (InvalidParameter name "String").
Proof.
  intros H. unfold checkParamOrThrow; simpl.
  destruct v; simpl; try reflexivity.
  rewrite (H s eq_refl). reflexivity.
Qed.

Lemma checkParamOrThrow_error (v : value) (name type : string) (e : error) :
  checkParamOrThrow v name type = Some e -> e = InvalidParameter name type.
Proof.
  unfold checkParamOrThrow.
  destruct (if String.eqb type "String" then _ else _); congruence.
Qed.

(** A call that passes validation has string [baseUrl], [storeId] and
    [key], so [str] only ever sees a string. *)
Lemma validate_strings (options : Options) :
  validate options = None ->
  is_string (baseUrl options) = true /\
  is_string (storeId options) = true /\
  is_string (key options) = true.
Proof.
  unfold validate. intros H.
  destruct (checkParamOrThrow (baseUrl options) _ _) eqn:E1; [discriminate|].
  destruct (checkParamOrThrow (storeId options) _ _) eqn:E2; [discriminate|].
  destruct (checkParamOrThrow (key options) _ _) eqn:E3; [discriminate|].
  apply checkParamOrThrow_String in E1 as (s1 & -> & _).
  apply checkParamOrThrow_String in E2 as (s2 & -> & _).
  apply checkParamOrThrow_String in E3 as (s3 & -> & _).
  repeat split.
Qed.

Lemma append_assoc (s1 s2 s3 : string) :
  (s1 ++ s2) ++ s3 = s1 ++ (s2 ++ s3).
Proof.
  induction s1 as [|c s1 IH]; simpl; [reflexivity|].
  rewrite IH. reflexivity.
Qed.

(** The signed-URL endpoint is the record endpoint followed by
    [/direct-upload-url]. *)
Lemma direct_upload_url_of_record (options : Options) :
  direct_upload_url options = record_url options ++ "/direct-upload-url".
Proof.
  unfold direct_upload_url, record_url.
  rewrite !append_assoc. reflexivity.
Qed.

Lemma foo_bar_urls :
  record_url foo_bar
    = "https://api.example/v2/key-value-stores/store1/records/foo" /\
  direct_upload_url foo_bar
    = "https://api.example/v2/key-value-stores/store1/records/foo/direct-upload-url".
Proof.
  split; reflexivity.
Qed.

(** The calls that pass validation. *)
Lemma validate_passes_iff (options : Options) :
  validate options = None <->
  nonempty_string (baseUrl options) = true /\
  nonempty_string (storeId options) = true /\
  nonempty_string (key options) = true /\
  nonempty_string (contentType_of options) = true /\
  (nonempty_buffer (body options) || nonempty_string (body options)) = true.
Proof.
  unfold validate, checkParamOrThrow; simpl.
  destruct (nonempty_string (baseUrl options));
    [| split; [discriminate | intros (H & _); discriminate]].
  destruct (nonempty_string (storeId options));
    [| split; [discriminate | intros (_ & H & _); discriminate]].
  destruct (nonempty_string (key options));
    [| split; [discriminate | intros (_ & _ & H & _); discriminate]].
  destruct (nonempty_string (contentType_of options));
    [| split; [discriminate | intros (_ & _ & _ & H & _); discriminate]].
  destruct (nonempty_buffer (body options) || nonempty_string (body options));
    [| split; [discriminate | intros (_ & _ & _ & _ & H); discriminate]].
  split; intros _; repeat split.
Qed.

Lemma validate_error (options : Options) (e : error) :
  validate options = Some e ->
  exists name type, e = InvalidParameter name type.
Proof.
  unfold validate. intros H.
  repeat match type of H with
  | match checkParamOrThrow ?v ?n ?t with _ => _ end = _ =>
      let E := fresh "E" in
      destruct (checkParamOrThrow v n t) eqn:E;
      [ injection H as <-; apply checkParamOrThrow_error in E; eauto | ]
  end.
  apply checkParamOrThrow_error in H. eauto.
Qed.

Section Properties.

Variable World : Type.
Variable transport : request -> World -> outcome value * World.
Variable gzip : value -> list byte.

Implicit Types (options : Options) (st : state World).

Lemma putRecord_invalid options st e :
  validate options = Some e ->
  putRecord transport gzip options st = (Throw e, st).
Proof.
  intros H. unfold putRecord. rewrite H. reflexivity.
Qed.

(** Small compressed body: the compression, then the one PUT. *)
Lemma putRecord_small options st :
  validate options = None ->
  Z.of_nat (List.length (gzip (body options))) < SIGNED_URL_UPLOAD_MIN_BYTESIZE ->
  let r := requestOpts options (gzip (body options)) in
  putRecord transport gzip options st =
    (Promise (fst (transport r (world st))),
     mkState (snd (transport r (world st)))
             (log st ++ [EGzip (body options);
                         ERequest r (fst (transport r (world st)))])).
Proof.
  intros Hv Hlt r. unfold putRecord. rewrite Hv.
  unfold and_then, gzipPromise, upload.
  apply Z.ltb_lt in Hlt. rewrite Hlt.
  unfold requestPromise; simpl. fold r.
  destruct (transport r (world st)) as [o w]; simpl.
  rewrite <- app_assoc. reflexivity.
Qed.

(** Large compressed body, signed-URL request failed. *)
Lemma putRecord_large_rejected options st e w :
  validate options = None ->
  SIGNED_URL_UPLOAD_MIN_BYTESIZE <= Z.of_nat (List.length (gzip (body options))) ->
  transport (signedUrlRequest options) (world st) = (Rejected e, w) ->
  putRecord transport gzip options st =
    (Promise (Rejected e),
     mkState w (log st ++ [EGzip (body options);
                           ERequest (signedUrlRequest options) (Rejected e)])).
Proof.
  intros Hv Hge Ht. unfold putRecord. rewrite Hv.
  unfold and_then, gzipPromise, upload.
  apply Z.ltb_ge in Hge. rewrite Hge.
  unfold and_then, requestPromise; simpl. rewrite Ht; simpl.
  rewrite <- app_assoc. reflexivity.
Qed.

(** Large compressed body, signed-URL request answered, but reading
    [response.data.signedUrl] throws. *)
Lemma putRecord_large_unreadable options st response e w :
  validate options = None ->
  SIGNED_URL_UPLOAD_MIN_BYTESIZE <= Z.of_nat (List.length (gzip (body options))) ->
  transport (signedUrlRequest options) (world st) = (Resolved response, w) ->
  signedUrl_of response = Rejected e ->
  putRecord transport gzip options st =
    (Promise (Rejected e),
     mkState w (log st ++ [EGzip (body options);
                           ERequest (signedUrlRequest options) (Resolved response)])).
Proof.
  intros Hv Hge Ht Hs. unfold putRecord. rewrite Hv.
  unfold and_then, gzipPromise, upload.
  apply Z.ltb_ge in Hge. rewrite Hge.
  unfold and_then, requestPromise, uploadToSignedUrl, and_then, settle; simpl.
  rewrite Ht; simpl. rewrite Hs.
  rewrite <- app_assoc. reflexivity.
Qed.

(** Large compressed body, signed-URL request answered and
    [response.data.signedUrl] read: the PUT goes to what was read. *)
Lemma putRecord_large_put options st response u w :
  validate options = None ->
  SIGNED_URL_UPLOAD_MIN_BYTESIZE <= Z.of_nat (List.length (gzip (body options))) ->
  transport (signedUrlRequest options) (world st) = (Resolved response, w) ->
  signedUrl_of response = Resolved u ->
  let r := assign_url (requestOpts options (gzip (body options))) u in
  putRecord transport gzip options st =
    (Promise (fst (transport r w)),
     mkState (snd (transport r w))
             (log st ++ [EGzip (body options);
                         ERequest (signedUrlRequest options) (Resolved response);
                         ERequest r (fst (transport r w))])).
Proof.
  intros Hv Hge Ht Hs r. unfold putRecord. rewrite Hv.
  unfold and_then, gzipPromise, upload.
  apply Z.ltb_ge in Hge. rewrite Hge.
  unfold and_then, requestPromise, uploadToSignedUrl, and_then, settle; simpl.
  rewrite Ht; simpl. rewrite Hs. unfold requestPromise; simpl. fold r.
  destruct (transport r w) as [o2 w2]; simpl.
  rewrite <- !app_assoc. reflexivity.
Qed.

Lemma events_of_log options st (evs : list event) :
  log (snd (putRecord transport gzip options st)) = (log st ++ evs)%list ->
  events transport gzip options st = evs.
Proof.
  intros H. unfold events. rewrite H. apply skipn_length_app.
Qed.

Lemma calls_of_log options st (evs : list event) :
  log (snd (putRecord transport gzip options st)) = (log st ++ evs)%list ->
  calls transport gzip options st = requests evs.
Proof.
  intros H. unfold calls. rewrite (events_of_log _ _ _ H). reflexivity.
Qed.

Lemma events_shape options st :
  trace_shape gzip options (events transport gzip options st).
Proof.
  destruct (validate options) as [e|] eqn:Hv.
  - rewrite (events_of_log options st []).
    + constructor.
    + rewrite (putRecord_invalid _ _ _ Hv); simpl.
      symmetry; apply app_nil_r.
  - destruct (Z_lt_ge_dec (Z.of_nat (List.length (gzip (body options))))
                          SIGNED_URL_UPLOAD_MIN_BYTESIZE) as [Hlt|Hge].
    + erewrite events_of_log;
        [| rewrite (putRecord_small _ _ Hv Hlt); reflexivity].
      constructor.
    + apply Z.ge_le in Hge.
      destruct (transport (signedUrlRequest options) (world st))
        as [[response|e] w] eqn:Ht.
      * destruct (signedUrl_of response) as [u|e] eqn:Hs.
        -- erewrite events_of_log;
             [| rewrite (putRecord_large_put _ _ _ _ _ Hv Hge Ht Hs);
                reflexivity].
           constructor.
        -- erewrite events_of_log;
             [| rewrite (putRecord_large_unreadable _ _ _ _ _ Hv Hge Ht Hs);
                reflexivity].
           constructor.
      * erewrite events_of_log;
          [| rewrite (putRecord_large_rejected _ _ _ _ Hv Hge Ht);
             reflexivity].
        constructor.
Qed.

(** The requests of a call that passes validation. *)
Lemma calls_valid options st :
  validate options = None ->
  calls transport gzip options st =
    if Z.of_nat (List.length (gzip (body options))) <? SIGNED_URL_UPLOAD_MIN_BYTESIZE
    then [requestOpts options (gzip (body options))]
    else
      match fst (transport (signedUrlRequest options) (world st)) with
      | Resolved response =>
          match signedUrl_of response with
          | Resolved u =>
              [signedUrlRequest options;
               assign_url (requestOpts options (gzip (body options))) u]
          | Rejected _ => [signedUrlRequest options]
          end
      | Rejected _ => [signedUrlRequest options]
      end.
Proof.
  intros Hv.
  destruct (Z.ltb_spec (Z.of_nat (List.length (gzip (body options))))
                       SIGNED_URL_UPLOAD_MIN_BYTESIZE) as [Hlt|Hge].
  - erewrite calls_of_log;
      [| rewrite (putRecord_small _ _ Hv Hlt); reflexivity].
    reflexivity.
  - destruct (transport (signedUrlRequest options) (world st))
      as [[response|e] w] eqn:Ht; simpl.
    + destruct (signedUrl_of response) as [u|e] eqn:Hs.
      * erewrite calls_of_log;
          [| rewrite (putRecord_large_put _ _ _ _ _ Hv Hge Ht Hs);
             reflexivity].
        reflexivity.
      * erewrite calls_of_log;
          [| rewrite (putRecord_large_unreadable _ _ _ _ _ Hv Hge Ht Hs);
             reflexivity].
        reflexivity.
    + erewrite calls_of_log;
        [| rewrite (putRecord_large_rejected _ _ _ _ Hv Hge Ht);
           reflexivity].
      reflexivity.
Qed.

Lemma calls_valid_nonempty options st :
  validate options = None ->
  calls transport gzip options st <> [].
Proof.
  intros Hv. rewrite (calls_valid _ _ Hv).
  destruct (_ <? _); [discriminate|].
  destruct (fst _) as [response|e]; [|discriminate].
  destruct (signedUrl_of response); discriminate.
Qed.

End Properties.

Lemma signedUrl_of_rejected (response : value) (e : error) :
  signedUrl_of response = Rejected e ->
  e = TypeError /\
  (response = VUndefined \/ response = VNull \/
   get_prop response "data" = Resolved VUndefined \/
   get_prop response "data" = Resolved VNull).
Proof.
  unfold signedUrl_of.
  destruct (get_prop response "data") as [d|e'] eqn:Hd.
  - intros H. destruct d; simpl in H; try discriminate;
      try (destruct (lookup "signedUrl" props); discriminate);
      injection H as <-; auto.
  - intros H. injection H as <-.
    destruct response; simpl in Hd; try discriminate;
      try (destruct (lookup "data" props); discriminate);
      injection Hd as <-; auto.
Qed.

Lemma missing_or_empty_fails (v : value) (name type : string) :
  missing_or_empty v = true ->
  checkParamOrThrow v name type = Some (InvalidParameter name type).
Proof.
  intros H. unfold checkParamOrThrow.
  assert (Hs : nonempty_string v = false).
  { destruct v; simpl in *; try reflexivity.
    destruct s; [reflexivity | discriminate]. }
  assert (Hb : nonempty_buffer v = false).
  { destruct v; simpl in *; try reflexivity.
    destruct bytes; [reflexivity | discriminate]. }
  rewrite Hs, Hb.
  destruct (String.eqb type "String"); [reflexivity|].
  destruct (String.eqb type "Buffer | String"); reflexivity.
Qed.

Lemma requests_headers_of_shape
    (gzip : value -> list byte) (options : Options)
    (evs : list event) (r : request) :
  trace_shape gzip options evs ->
  In r (requests evs) ->
  lookup "Content-Type" (req_headers r) = Some (contentType_of options).
Proof.
  intros Hshape Hin.
  destruct Hshape; simpl in Hin;
    repeat (destruct Hin as [<- | Hin]; [reflexivity|]);
    contradiction.
Qed.

Lemma requests_NoDup_of_shape
    (gzip : value -> list byte) (options : Options) (evs : list event) :
  trace_shape gzip options evs -> NoDup (requests evs).
Proof.
  intros Hshape. destruct Hshape; simpl;
    try (repeat constructor; simpl; tauto).
  constructor; [| repeat constructor; simpl; tauto].
  simpl. intros [H|[]].
  apply (f_equal req_method) in H. discriminate.
Qed.

Lemma failed_request_last_of_shape
    (gzip : value -> list byte) (options : Options) (evs : list event) :
  trace_shape gzip options evs ->
  forall pre r e post,
    evs = (pre ++ ERequest r (Rejected e) :: post)%list -> post = [].
Proof.
  intros Hshape pre r e post H.
  destruct Hshape;
    destruct pre as [|a [|b [|c pre']]]; simpl in H;
    inversion H; subst; try reflexivity;
    match goal with
    | E : [] = (?p ++ _ :: _)%list |- _ => destruct p; discriminate E
    end.
Qed.

Arguments putRecord_invalid {World transport gzip options st e} _.
Arguments putRecord_small {World transport gzip options st} _ _.
Arguments putRecord_large_rejected {World transport gzip options st e w} _ _ _.
Arguments putRecord_large_unreadable
  {World transport gzip options st response e w} _ _ _ _.
Arguments putRecord_large_put
  {World transport gzip options st response u w} _ _ _ _.
Arguments events_of_log {World transport gzip options st} evs _.
Arguments calls_of_log {World transport gzip options st} evs _.
Arguments calls_valid {World} transport gzip options st _.
Arguments calls_valid_nonempty {World} transport gzip options st _ _.

(** ** The upload protocol *)

Section Protocol.

Variable World : Type.
Variable transport : request -> World -> outcome value * World.
Variable gzip : value -> list byte.

Implicit Types (options : Options) (st : state World).

(** C1 (amended).  For every call that passes validation, the requests
    handed to the transport are decided by the length of the compressed
    body alone: below 262144 bytes exactly one PUT to the record endpoint
    carrying the compressed body; otherwise exactly one GET to the
    direct-upload-url endpoint, followed by exactly one PUT when that GET
    is answered and [response.data.signedUrl] can be read, and by nothing
    when the GET fails or the read throws.  The method of the first
    request is a function of the compressed length only. *)
Theorem putRecord_requests_by_compressed_length options st :
  validate options = None ->
  let gz := gzip (body options) in
  let get := signedUrlRequest options in
  option_map req_method (hd_error (calls transport gzip options st))
    = Some (if Z.of_nat (List.length gz) <? 262144 then "PUT" else "GET")
  /\
  (Z.of_nat (List.length gz) < 262144 ->
     calls transport gzip options st = [requestOpts options gz] /\
     req_method (requestOpts options gz) = "PUT" /\
     req_url (requestOpts options gz) = VString (record_url options) /\
     req_body (requestOpts options gz) = Some gz)
  /\
  (262144 <= Z.of_nat (List.length gz) ->
     req_method get = "GET" /\
     req_url get = VString (record_url options ++ "/direct-upload-url") /\
     calls transport gzip options st =
       match fst (transport get (world st)) with
       | Resolved response =>
           match signedUrl_of response with
           | Resolved u => [get; assign_url (requestOpts options gz) u]
           | Rejected _ => [get]
           end
       | Rejected _ => [get]
       end).
Proof.
  intros Hv gz get. split; [| split].
  - rewrite (calls_valid transport gzip options st Hv). fold gz get.
    change SIGNED_URL_UPLOAD_MIN_BYTESIZE with 262144.
    destruct (Z.of_nat (List.length gz) <? 262144); [reflexivity|].
    destruct (fst (transport get (world st))) as [response|e];
      [| reflexivity].
    destruct (signedUrl_of response); reflexivity.
  - intros Hlt. split; [| repeat split].
    rewrite (calls_valid transport gzip options st Hv).
    fold gz.
    replace (Z.of_nat (List.length gz) <? SIGNED_URL_UPLOAD_MIN_BYTESIZE)
      with true by (symmetry; apply Z.ltb_lt; exact Hlt).
    reflexivity.
  - intros Hge. split; [reflexivity|].
    split; [unfold get; simpl; rewrite direct_upload_url_of_record;
            reflexivity|].
    rewrite (calls_valid transport gzip options st Hv).
    fold gz.
    replace (Z.of_nat (List.length gz) <? SIGNED_URL_UPLOAD_MIN_BYTESIZE)
      with false by (symmetry; apply Z.ltb_ge; exact Hge).
    reflexivity.
Qed.

(** C2.  The threshold is 262144 bytes, and a compressed body of exactly
    262144 bytes takes the signed-URL path, all of it: after the
    compression the first request is the GET to the direct-upload-url
    endpoint, and the only request that can follow is the PUT of the
    compressed body to the URL read from the answer; nothing is sent to the
    record endpoint on account of the length. *)
Theorem boundary_length_takes_signed_url_path options st :
  validate options = None ->
  Z.of_nat (List.length (gzip (body options))) = 262144 ->
  let gz := gzip (body options) in
  let get :=
    {| req_url := VString (direct_upload_url options);
       req_method := "GET";
       req_body := None;
       req_json := true;
       req_headers := [("Content-Type", contentType_of options)] |} in
  let put u :=
    {| req_url := u;
       req_method := "PUT";
       req_body := Some gz;
       req_json := false;
       req_headers := [("Content-Type", contentType_of options);
                       ("Content-Encoding", VString "gzip")] |} in
  SIGNED_URL_UPLOAD_MIN_BYTESIZE = 262144 /\
  (Z.of_nat (List.length gz) <? SIGNED_URL_UPLOAD_MIN_BYTESIZE) = false /\
  direct_upload_url options = record_url options ++ "/direct-upload-url" /\
  exists o w,
    transport get (world st) = (o, w) /\
    events transport gzip options st =
      EGzip (body options) :: ERequest get o ::
        match o with
        | Resolved response =>
            match signedUrl_of response with
            | Resolved u => [ERequest (put u) (fst (transport (put u) w))]
            | Rejected _ => []
            end
        | Rejected _ => []
        end /\
    calls transport gzip options st =
      get :: match o with
             | Resolved response =>
                 match signedUrl_of response with
                 | Resolved u => [put u]
                 | Rejected _ => []
                 end
             | Rejected _ => []
             end.
Proof.
  intros Hv Hlen gz get put.
  split; [reflexivity|]. split.
  { unfold gz. rewrite Hlen. reflexivity. }
  split; [apply direct_upload_url_of_record|].
  assert (Hge : SIGNED_URL_UPLOAD_MIN_BYTESIZE
                <= Z.of_nat (List.length (gzip (body options)))).
  { rewrite Hlen. unfold SIGNED_URL_UPLOAD_MIN_BYTESIZE. lia. }
  change get with (signedUrlRequest options).
  unfold calls.
  destruct (transport (signedUrlRequest options) (world st))
    as [[response|e] w] eqn:Ht.
  - exists (Resolved response), w. split; [reflexivity|].
    destruct (signedUrl_of response) as [u|e] eqn:Hs.
    + erewrite events_of_log;
        [| rewrite (putRecord_large_put Hv Hge Ht Hs); reflexivity].
      split; reflexivity.
    + erewrite events_of_log;
        [| rewrite (putRecord_large_unreadable Hv Hge Ht Hs); reflexivity].
      split; reflexivity.
  - exists (Rejected e), w. split; [reflexivity|].
    erewrite events_of_log;
      [| rewrite (putRecord_large_rejected Hv Hge Ht); reflexivity].
    split; reflexivity.
Qed.

(** C3 (amended).  On the signed-URL path, when the GET is answered but
    the response has no [data] to read from (the response or its [data]
    is [undefined] or [null]), the call fails with a TypeError and the GET
    is the only request; when [data] is there without a [signedUrl], the
    PUT is still handed to the transport, with [url] undefined, and the
    call settles as that request does. *)
Theorem unreadable_signedUrl_fails_without_put options st response w :
  validate options = None ->
  262144 <= Z.of_nat (List.length (gzip (body options))) ->
  transport (signedUrlRequest options) (world st) = (Resolved response, w) ->
  (forall e, signedUrl_of response = Rejected e ->
     e = TypeError /\
     fst (putRecord transport gzip options st) = Promise (Rejected TypeError) /\
     calls transport gzip options st = [signedUrlRequest options])
  /\
  (signedUrl_of response = Resolved VUndefined ->
     let put := assign_url (requestOpts options (gzip (body options))) VUndefined in
     fst (putRecord transport gzip options st) = Promise (fst (transport put w)) /\
     calls transport gzip options st = [signedUrlRequest options; put]).
Proof.
  intros Hv Hge Ht. split.
  - intros e Hs.
    destruct (signedUrl_of_rejected _ _ Hs) as [-> _].
    split; [reflexivity|].
    rewrite (putRecord_large_unreadable Hv Hge Ht Hs).
    split; [reflexivity|].
    erewrite calls_of_log;
      [| rewrite (putRecord_large_unreadable Hv Hge Ht Hs);
         reflexivity].
    reflexivity.
  - intros Hs put.
    rewrite (putRecord_large_put Hv Hge Ht Hs).
    split; [reflexivity|].
    erewrite calls_of_log;
      [| rewrite (putRecord_large_put Hv Hge Ht Hs);
         reflexivity].
    reflexivity.
Qed.

(** C4.  When [storeId], [key] or [body] is missing or empty, the call
    throws an InvalidParameter error before it returns, with the state
    untouched: nothing was compressed and no request was made. *)
Theorem missing_parameter_throws_before_io options st :
  missing_or_empty (storeId options) = true \/
  missing_or_empty (key options) = true \/
  missing_or_empty (body options) = true ->
  (exists name type,
     putRecord transport gzip options st =
       (Throw (InvalidParameter name type), st)) /\
  events transport gzip options st = [] /\
  calls transport gzip options st = [].
Proof.
  intros H.
  assert (He : exists e, validate options = Some e).
  { unfold validate.
    destruct (checkParamOrThrow (baseUrl options) _ _); [eauto|].
    destruct (checkParamOrThrow (storeId options) _ _) eqn:E2; [eauto|].
    destruct (checkParamOrThrow (key options) _ _) eqn:E3; [eauto|].
    destruct (checkParamOrThrow (contentType_of options) _ _); [eauto|].
    destruct H as [H | [H | H]].
    - rewrite (missing_or_empty_fails _ _ _ H) in E2. discriminate.
    - rewrite (missing_or_empty_fails _ _ _ H) in E3. discriminate.
    - rewrite (missing_or_empty_fails _ _ _ H). eauto. }
  destruct He as [e He].
  destruct (validate_error _ _ He) as (name & type & ->).
  pose proof (putRecord_invalid (transport := transport) (gzip := gzip) (st := st) He) as Hp.
  assert (Hev : events transport gzip options st = []).
  { apply events_of_log. rewrite Hp; simpl. symmetry; apply app_nil_r. }
  split; [eauto|]. split; [exact Hev|].
  unfold calls. rewrite Hev. reflexivity.
Qed.


(** C6.  On the signed-URL path, when the GET itself fails, the call
    fails with that very error and the GET is its only request. *)
Theorem signed_url_failure_stops_the_call options st e w :
  validate options = None ->
  262144 <= Z.of_nat (List.length (gzip (body options))) ->
  transport (signedUrlRequest options) (world st) = (Rejected e, w) ->
  fst (putRecord transport gzip options st) = Promise (Rejected e) /\
  calls transport gzip options st = [signedUrlRequest options] /\
  req_method (signedUrlRequest options) = "GET".
Proof.
  intros Hv Hge Ht.
  pose proof (putRecord_large_rejected Hv Hge Ht) as Hp.
  split; [rewrite Hp; reflexivity|]. split; [|reflexivity].
  erewrite calls_of_log; [| rewrite Hp; reflexivity].
  reflexivity.
Qed.

(** C7.  On the signed-URL path the PUT is the request of the direct
    path with only its [url] replaced by the signed URL: same method,
    same compressed body, same [Content-Type] and [Content-Encoding: gzip]
    headers, same [json] flag. *)
Theorem signed_url_put_is_the_direct_put options st response u w :
  validate options = None ->
  262144 <= Z.of_nat (List.length (gzip (body options))) ->
  transport (signedUrlRequest options) (world st) = (Resolved response, w) ->
  signedUrl_of response = Resolved u ->
  let direct := requestOpts options (gzip (body options)) in
  exists put,
    calls transport gzip options st = [signedUrlRequest options; put] /\
    put = assign_url direct u /\
    req_url put = u /\
    req_method put = req_method direct /\
    req_method put = "PUT" /\
    req_body put = req_body direct /\
    req_body put = Some (gzip (body options)) /\
    req_headers put = req_headers direct /\
    req_headers put = [("Content-Type", contentType_of options);
                       ("Content-Encoding", VString "gzip")] /\
    req_json put = req_json direct.
Proof.
  intros Hv Hge Ht Hs direct.
  exists (assign_url direct u).
  split; [| repeat split].
  erewrite calls_of_log;
    [| rewrite (putRecord_large_put Hv Hge Ht Hs); reflexivity].
  reflexivity.
Qed.

(** C8.  Whatever the parameters, the transport and the compression, a
    call hands at most two requests to the transport, never the same
    request twice, and a request that failed is the last event of the
    call: nothing is retried. *)
Theorem at_most_two_requests_no_retry options st :
  (List.length (calls transport gzip options st) <= 2)%nat /\
  NoDup (calls transport gzip options st) /\
  (forall pre r e post,
     events transport gzip options st
       = (pre ++ ERequest r (Rejected e) :: post)%list ->
     post = []).
Proof.
  pose proof (events_shape _ transport gzip options st) as Hshape.
  split; [| split].
  - unfold calls. destruct Hshape; simpl; lia.
  - apply (requests_NoDup_of_shape gzip options), Hshape.
  - apply (failed_request_last_of_shape gzip options), Hshape.
Qed.

(** C9.  [baseUrl] is validated first, as a String: when it is missing or
    not a string the call throws the InvalidParameter error of [baseUrl]
    with the state untouched, so nothing is compressed and no request is
    made. *)
Theorem baseUrl_is_validated_first options st :
  is_string (baseUrl options) = false ->
  putRecord transport gzip options st =
    (Throw (InvalidParameter "baseUrl" "String"), st) /\
  events transport gzip options st = [] /\
  calls transport gzip options st = [].
Proof.
  intros H.
  assert (Hv : validate options = Some (InvalidParameter "baseUrl" "String")).
  { unfold validate.
    rewrite (checkParamOrThrow_String_fails (baseUrl options));
      [reflexivity|].
    intros s E. rewrite E in H. discriminate. }
  pose proof (putRecord_invalid (transport := transport) (gzip := gzip)
                (st := st) Hv) as Hp.
  assert (Hev : events transport gzip options st = []).
  { apply events_of_log. rewrite Hp; simpl. symmetry; apply app_nil_r. }
  split; [exact Hp|]. split; [exact Hev|].
  unfold calls. rewrite Hev. reflexivity.
Qed.

(** X17.  [putRecord] replaces the content type only when it is
    [undefined]: any other value is the one that is validated, and when
    the call passes validation it is, unaltered, the [Content-Type] header
    of every request the call makes, of which there is at least one. *)
Theorem given_contentType_is_sent_verbatim options st :
  validate options = None ->
  contentType options <> VUndefined ->
  contentType_of options = contentType options /\
  (exists s, contentType options = VString s) /\
  calls transport gzip options st <> [] /\
  (forall r, In r (calls transport gzip options st) ->
     lookup "Content-Type" (req_headers r) = Some (contentType options)).
Proof.
  intros Hv Hct.
  assert (Hof : contentType_of options = contentType options).
  { unfold contentType_of. destruct (contentType options); congruence. }
  split; [exact Hof|]. split.
  { apply validate_passes_iff in Hv as (_ & _ & _ & Hs & _).
    rewrite Hof in Hs.
    destruct (contentType options); try discriminate. eauto. }
  split; [apply calls_valid_nonempty, Hv|].
  intros r Hin. rewrite <- Hof.
  apply (requests_headers_of_shape gzip options
           (events transport gzip options st)).
  - apply events_shape.
  - exact Hin.
Qed.

End Protocol.

(** ** The protocol on the sample calls *)

Lemma gzip_boundary_length (b : value) :
  Z.of_nat (List.length (gzip_boundary b)) = 262144.
Proof.
  unfold gzip_boundary. rewrite repeat_length. apply Z2Nat.id. lia.
Defined.

Lemma gzip_boundary_large (b : value) :
  262144 <= Z.of_nat (List.length (gzip_boundary b)).
Proof.
  rewrite gzip_boundary_length. lia.
Defined.

Lemma gzip_boundary_not_small (b : value) :
  (Z.of_nat (List.length (gzip_boundary b)) <? SIGNED_URL_UPLOAD_MIN_BYTESIZE)
  = false.
Proof.
  rewrite gzip_boundary_length. reflexivity.
Qed.

Lemma gzip_boundary_threshold (b : value) :
  SIGNED_URL_UPLOAD_MIN_BYTESIZE <= Z.of_nat (List.length (gzip_boundary b)).
Proof.
  rewrite gzip_boundary_length. unfold SIGNED_URL_UPLOAD_MIN_BYTESIZE. lia.
Qed.

(** [putRecord({ key: 'foo', body: 'bar' })] on [store1]: one PUT when the
    body compresses to three bytes, the GET and the PUT to the signed URL
    when it compresses to 262144 bytes. *)
Lemma foo_bar_requests :
  validate foo_bar = None /\
  calls accepting_transport gzip_small foo_bar fresh
    = [requestOpts foo_bar (gzip_small (body foo_bar))] /\
  calls accepting_transport gzip_boundary foo_bar fresh
    = [signedUrlRequest foo_bar;
       assign_url (requestOpts foo_bar (gzip_boundary (body foo_bar)))
                  (VString "https://storage.example/upload")].
Proof.
  split; [reflexivity|]. split.
  - destruct (putRecord_requests_by_compressed_length
                served accepting_transport gzip_small foo_bar fresh eq_refl)
      as (_ & Hsmall & _).
    apply Hsmall. reflexivity.
  - destruct (putRecord_requests_by_compressed_length
                served accepting_transport gzip_boundary foo_bar fresh eq_refl)
      as (_ & _ & Hlarge).
    destruct (Hlarge (gzip_boundary_large _)) as (_ & _ & Hcalls).
    exact Hcalls.
Defined.

(** A body that compresses to exactly 262144 bytes is never PUT to the
    record endpoint: the GET, then the PUT to the signed URL. *)
Lemma foo_bar_at_the_boundary :
  validate foo_bar = None /\
  Z.of_nat (List.length (gzip_boundary (body foo_bar))) = 262144 /\
  calls accepting_transport gzip_boundary foo_bar fresh =
    [ {| req_url := VString (direct_upload_url foo_bar);
         req_method := "GET";
         req_body := None;
         req_json := true;
         req_headers :=
           [("Content-Type", VString "text/plain; charset=utf-8")] |};
      {| req_url := VString "https://storage.example/upload";
         req_method := "PUT";
         req_body := Some (gzip_boundary (body foo_bar));
         req_json := false;
         req_headers :=
           [("Content-Type", VString "text/plain; charset=utf-8");
            ("Content-Encoding", VString "gzip")] |} ].
Proof.
  split; [reflexivity|]. split; [apply gzip_boundary_length|].
  destruct (boundary_length_takes_signed_url_path
              served accepting_transport gzip_boundary foo_bar fresh eq_refl
              (gzip_boundary_length _))
    as (_ & _ & _ & o & w & Ht & _ & Hcalls).
  injection Ht as <- <-.
  exact Hcalls.
Defined.

(** A signed-URL answer without [data]: the call fails and the upload is
    not attempted. *)
Lemma foo_bar_without_data :
  validate foo_bar = None /\
  262144 <= Z.of_nat (List.length (gzip_boundary (body foo_bar))) /\
  no_data_transport (signedUrlRequest foo_bar) (world fresh)
    = (Resolved (VObject []), 1%nat) /\
  signedUrl_of (VObject []) = Rejected TypeError /\
  fst (putRecord no_data_transport gzip_boundary foo_bar fresh)
    = Promise (Rejected TypeError) /\
  calls no_data_transport gzip_boundary foo_bar fresh
    = [signedUrlRequest foo_bar].
Proof.
  split; [reflexivity|]. split; [apply gzip_boundary_large|].
  split; [reflexivity|]. split; [reflexivity|].
  destruct (unreadable_signedUrl_fails_without_put
              served no_data_transport gzip_boundary foo_bar fresh
              (VObject []) 1%nat eq_refl (gzip_boundary_large _) eq_refl)
    as [Hfail _].
  destruct (Hfail TypeError eq_refl) as (_ & Hres & Hcalls).
  split; [exact Hres | exact Hcalls].
Defined.

(** An empty [storeId] stops the call before anything is done. *)
Lemma empty_storeId_throws :
  missing_or_empty (storeId (with_storeId foo_bar (VString ""))) = true /\
  (exists name type,
     putRecord accepting_transport gzip_small
       (with_storeId foo_bar (VString "")) fresh
     = (Throw (InvalidParameter name type), fresh)) /\
  events accepting_transport gzip_small
    (with_storeId foo_bar (VString "")) fresh = [] /\
  calls accepting_transport gzip_small
    (with_storeId foo_bar (VString "")) fresh = [].
Proof.
  split; [reflexivity|].
  apply (missing_parameter_throws_before_io
           served accepting_transport gzip_small
           (with_storeId foo_bar (VString "")) fresh).
  left. reflexivity.
Defined.


(** With the service down, a large upload ends at the signed-URL request. *)
Lemma foo_bar_service_down :
  validate foo_bar = None /\
  262144 <= Z.of_nat (List.length (gzip_boundary (body foo_bar))) /\
  failing_transport (signedUrlRequest foo_bar) (world fresh)
    = (Rejected (TransportFailure (VNumber 503)), 1%nat) /\
  fst (putRecord failing_transport gzip_boundary foo_bar fresh)
    = Promise (Rejected (TransportFailure (VNumber 503))) /\
  calls failing_transport gzip_boundary foo_bar fresh
    = [signedUrlRequest foo_bar] /\
  req_method (signedUrlRequest foo_bar) = "GET".
Proof.
  split; [reflexivity|]. split; [apply gzip_boundary_large|].
  split; [reflexivity|].
  apply (signed_url_failure_stops_the_call
           served failing_transport gzip_boundary foo_bar fresh
           (TransportFailure (VNumber 503)) 1%nat
           eq_refl (gzip_boundary_large _) eq_refl).
Defined.

(** The PUT of a large [foo_bar] upload, field by field. *)
Lemma foo_bar_signed_put :
  validate foo_bar = None /\
  262144 <= Z.of_nat (List.length (gzip_boundary (body foo_bar))) /\
  exists put,
    calls accepting_transport gzip_boundary foo_bar fresh
      = [signedUrlRequest foo_bar; put] /\
    req_url put = VString "https://storage.example/upload" /\
    req_method put = "PUT" /\
    req_body put = Some (gzip_boundary (body foo_bar)) /\
    req_headers put = [("Content-Type", VString "text/plain; charset=utf-8");
                       ("Content-Encoding", VString "gzip")].
Proof.
  split; [reflexivity|]. split; [apply gzip_boundary_large|].
  destruct (signed_url_put_is_the_direct_put
              served accepting_transport gzip_boundary foo_bar fresh
              (VObject [("data",
                 VObject [("signedUrl",
                           VString "https://storage.example/upload")])])
              (VString "https://storage.example/upload") 1%nat
              eq_refl (gzip_boundary_large _) eq_refl eq_refl)
    as (put & Hcalls & _ & Hurl & _ & Hmeth & _ & Hbody & _ & Hhdr & _).
  exists put.
  split; [exact Hcalls|]. split; [exact Hurl|]. split; [exact Hmeth|].
  split; [exact Hbody | exact Hhdr].
Defined.

(** A call without [baseUrl] stops at the first check. *)
Lemma missing_baseUrl_throws :
  is_string (baseUrl (with_baseUrl foo_bar VUndefined)) = false /\
  putRecord accepting_transport gzip_small
    (with_baseUrl foo_bar VUndefined) fresh
  = (Throw (InvalidParameter "baseUrl" "String"), fresh) /\
  calls accepting_transport gzip_small
    (with_baseUrl foo_bar VUndefined) fresh = [].
Proof.
  split; [reflexivity|].
  destruct (baseUrl_is_validated_first
              served accepting_transport gzip_small
              (with_baseUrl foo_bar VUndefined) fresh eq_refl)
    as (Hthrow & _ & Hcalls).
  split; [exact Hthrow | exact Hcalls].
Defined.

(** [putRecord] with [contentType: 'application/json']. *)
Lemma json_contentType_is_sent :
  validate (with_contentType foo_bar (VString "application/json")) = None /\
  contentType (with_contentType foo_bar (VString "application/json"))
    <> VUndefined /\
  forall r,
    In r (calls accepting_transport gzip_small
            (with_contentType foo_bar (VString "application/json")) fresh) ->
    lookup "Content-Type" (req_headers r)
      = Some (VString "application/json").
Proof.
  split; [reflexivity|]. split; [discriminate|].
  destruct (given_contentType_is_sent_verbatim
              served accepting_transport gzip_small
              (with_contentType foo_bar (VString "application/json")) fresh
              eq_refl
              (fun E : VString "application/json" = VUndefined =>
                 eq_ind (VString "application/json")
                   (fun v => match v with
                             | VString _ => True
                             | _ => False
                             end) I VUndefined E))
    as (_ & _ & _ & Hall).
  exact Hall.
Defined.

(** ** Where the protocol differs from a first reading *)

(** Against C1 as stated: a valid call whose body compresses to 262144
    bytes, with the service down, makes the GET and no PUT. *)
Lemma large_body_failed_get_sends_no_put :
  validate foo_bar = None /\
  262144 <= Z.of_nat (List.length (gzip_boundary (body foo_bar))) /\
  calls failing_transport gzip_boundary foo_bar fresh
    = [signedUrlRequest foo_bar] /\
  forall put,
    calls failing_transport gzip_boundary foo_bar fresh
      <> [signedUrlRequest foo_bar; put].
Proof.
  assert (Hcalls : calls failing_transport gzip_boundary foo_bar fresh
                   = [signedUrlRequest foo_bar]).
  { rewrite (calls_valid failing_transport gzip_boundary foo_bar fresh eq_refl).
    rewrite gzip_boundary_not_small.
    reflexivity. }
  split; [reflexivity|]. split; [apply gzip_boundary_large|].
  split; [exact Hcalls|].
  intros put. rewrite Hcalls. discriminate.
Qed.

(** Against C3 as stated: the signed-URL answer [{ data: {} }] has no
    [data.signedUrl], yet the call resolves and a second request, the PUT
    with [url] undefined, was handed to the transport. *)
Lemma bare_data_still_sends_the_put :
  validate foo_bar = None /\
  262144 <= Z.of_nat (List.length (gzip_boundary (body foo_bar))) /\
  bare_data_transport (signedUrlRequest foo_bar) (world fresh)
    = (Resolved (VObject [("data", VObject [])]), 1%nat) /\
  lookup "signedUrl" ([] : list (string * value)) = None /\
  signedUrl_of (VObject [("data", VObject [])]) = Resolved VUndefined /\
  fst (putRecord bare_data_transport gzip_boundary foo_bar fresh)
    = Promise (Resolved (VString "stored")) /\
  calls bare_data_transport gzip_boundary foo_bar fresh
    = [signedUrlRequest foo_bar;
       assign_url (requestOpts foo_bar (gzip_boundary (body foo_bar)))
                  VUndefined].
Proof.
  split; [reflexivity|]. split; [apply gzip_boundary_large|].
  do 3 (split; [reflexivity|]).
  split.
  - rewrite (putRecord_large_put (transport := bare_data_transport)
               (gzip := gzip_boundary) (options := foo_bar)
               (st := fresh) (response := VObject [("data", VObject [])])
               (u := VUndefined) (w := 1%nat)
               eq_refl (gzip_boundary_threshold _) eq_refl eq_refl).
    reflexivity.
  - rewrite (calls_valid bare_data_transport gzip_boundary foo_bar fresh eq_refl).
    rewrite gzip_boundary_not_small.
    reflexivity.
Qed.


(** ** Objects and queries *)

Lemma lookup_set_prop (k k' : string) (v : value) (o : bag) :
  lookup k' (set_prop k v o) = if String.eqb k' k then Some v else lookup k' o.
Proof.
  induction o as [|[k0 v0] o IH]; simpl.
  - reflexivity.
  - destruct (String.eqb_spec k k0) as [->|Hk]; simpl.
    + destruct (String.eqb k' k0); reflexivity.
    + rewrite IH.
      destruct (String.eqb_spec k' k0) as [->|Hk'].
      * destruct (String.eqb_spec k0 k) as [E|_]; [congruence | reflexivity].
      * reflexivity.
Qed.

Lemma lookup_set_if (c : value) (k k' : string) (v : value) (o : bag) :
  lookup k' (set_if c k v o)
  = if truthy c && String.eqb k' k then Some v else lookup k' o.
Proof.
  unfold set_if. destruct (truthy c); simpl; [apply lookup_set_prop | reflexivity].
Qed.

Lemma guard_Requested (c : option error) (rest : call) (d : bag)
    (hs : list handler) :
  guard c rest = Requested d hs -> c = None /\ rest = Requested d hs.
Proof.
  destruct c; simpl; [discriminate | auto].
Qed.

Lemma bind_throw_Requested (x : outcome value) (rest : value -> call)
    (d : bag) (hs : list handler) :
  bind_throw x rest = Requested d hs ->
  exists v, x = Resolved v /\ rest v = Requested d hs.
Proof.
  destruct x; simpl; [eauto | discriminate].
Qed.

(** Strips the guards of a call that made its request. *)
Ltac strip_guards H :=
  repeat
    (let Hc := fresh "Hcheck" in
     apply guard_Requested in H as [Hc H]).

(** ** The key-value store operations *)

Section StoreProperties.

Variable check : value -> string -> string -> option error.
Variable pluckData : value -> outcome value.
Variable catchNotFoundOrThrow : error -> outcome value.
Variable parseBody : value -> value -> outcome value.

Implicit Types (options : bag) (d : bag) (hs : list handler).

(** X1.  [listStores] always sends the token, and sends [limit] and
    [offset] only when they are truthy, so a [limit] or [offset] of 0 never
    reaches the query; [desc] and [unnamed] are sent as the number 1, and
    only when truthy.  Nothing else is sent, and every parameter other than
    the token is truthy. *)
Theorem listStores_sends_only_truthy_paging options d hs :
  listStores check pluckData options = Requested d hs ->
  let q := listStores_query options in
  let limit := field options "limit" in
  let offset := field options "offset" in
  lookup "qs" d = Some (VObject q) /\
  lookup "token" q = Some (field options "token") /\
  lookup "limit" q = (if truthy limit then Some limit else None) /\
  lookup "offset" q = (if truthy offset then Some offset else None) /\
  lookup "desc" q
    = (if truthy (field options "desc") then Some (VNumber 1) else None) /\
  lookup "unnamed" q
    = (if truthy (field options "unnamed") then Some (VNumber 1) else None) /\
  (forall k v, lookup k q = Some v ->
     k = "token" \/
     (truthy v = true /\
      (k = "limit" \/ k = "offset" \/ k = "desc" \/ k = "unnamed"))).
Proof.
  intros H q limit offset.
  unfold listStores in H. strip_guards H.
  injection H as <- _.
  split; [reflexivity|].
  unfold q, listStores_query.
  repeat split; try (rewrite !lookup_set_if; simpl;
                     rewrite ?andb_false_r, ?andb_true_r; reflexivity).
  intros k v Hk. rewrite !lookup_set_if in Hk. simpl in Hk.
  destruct (truthy (field options "unnamed") && String.eqb k "unnamed") eqn:E4.
  { apply andb_prop in E4 as [_ E]. apply String.eqb_eq in E.
    injection Hk as <-. right. split; [reflexivity | auto]. }
  destruct (truthy (field options "desc") && String.eqb k "desc") eqn:E3.
  { apply andb_prop in E3 as [_ E]. apply String.eqb_eq in E.
    injection Hk as <-. right. split; [reflexivity | auto]. }
  destruct (truthy (field options "offset") && String.eqb k "offset") eqn:E2.
  { apply andb_prop in E2 as [T E]. apply String.eqb_eq in E.
    injection Hk as <-. right. split; [exact T | auto]. }
  destruct (truthy (field options "limit") && String.eqb k "limit") eqn:E1.
  { apply andb_prop in E1 as [T E]. apply String.eqb_eq in E.
    injection Hk as <-. right. split; [exact T | auto]. }
  destruct (String.eqb_spec k "token") as [->|_]; [left; reflexivity|].
  discriminate.
Qed.

(** X2.  [listKeys] never sends a token, whatever the option bag holds, and
    sends [exclusiveStartKey] and [limit] only when they are truthy: an
    empty start key and a limit of 0 are dropped. *)
Theorem listKeys_sends_no_token options d hs :
  listKeys check pluckData options = Requested d hs ->
  let q := listKeys_query options in
  let exclusiveStartKey := field options "exclusiveStartKey" in
  let limit := field options "limit" in
  lookup "qs" d = Some (VObject q) /\
  lookup "token" q = None /\
  lookup "exclusiveStartKey" q
    = (if truthy exclusiveStartKey then Some exclusiveStartKey else None) /\
  lookup "limit" q = (if truthy limit then Some limit else None) /\
  (forall k v, lookup k q = Some v ->
     truthy v = true /\ (k = "exclusiveStartKey" \/ k = "limit")).
Proof.
  intros H q exclusiveStartKey limit.
  unfold listKeys in H. strip_guards H.
  injection H as <- _.
  split; [reflexivity|].
  unfold q, listKeys_query.
  do 3 (split; [rewrite !lookup_set_if; simpl;
                rewrite ?andb_false_r, ?andb_true_r; reflexivity|]).
  intros k v Hk. rewrite !lookup_set_if in Hk. simpl in Hk.
  destruct (truthy (field options "limit") && String.eqb k "limit") eqn:E2.
  { apply andb_prop in E2 as [T E]. apply String.eqb_eq in E.
    injection Hk as <-. auto. }
  destruct (truthy (field options "exclusiveStartKey")
            && String.eqb k "exclusiveStartKey") eqn:E1.
  { apply andb_prop in E1 as [T E]. apply String.eqb_eq in E.
    injection Hk as <-. auto. }
  discriminate.
Qed.

(** X3.  With [disableBodyParser] set, [getRecord] resolves with the body
    of the response exactly as received, next to the [content-type] header
    ([undefined] when the response has none); the body parser has no part
    in the result. *)
Theorem getRecord_raw_body options d hs response b headers :
  getRecord check catchNotFoundOrThrow parseBody options = Requested d hs ->
  truthy (field options "disableBodyParser") = true ->
  get_prop response "body" = Resolved b ->
  get_prop response "headers" = Resolved (VObject headers) ->
  settle_through hs (Resolved response)
  = Resolved (VObject [("contentType", field headers "content-type");
                       ("body", b)]).
Proof.
  intros H Hraw Hb Hh.
  unfold getRecord in H. strip_guards H.
  injection H as _ <-.
  unfold settle_through; simpl. unfold parseResponse.
  rewrite Hb, Hh, Hraw. simpl. unfold field.
  destruct (lookup "content-type" headers); reflexivity.
Qed.

(** X4.  Every failure of [getRecord] goes through the not-found handler:
    a failed request, a response from which [body] or [headers] cannot be
    read, and a failure of the body parser alike.  A response without
    [headers] is such a failure, a TypeError. *)
Theorem getRecord_failures_reach_the_not_found_handler options d hs :
  getRecord check catchNotFoundOrThrow parseBody options = Requested d hs ->
  (forall e, settle_through hs (Rejected e) = catchNotFoundOrThrow e) /\
  (forall response,
     settle_through hs (Resolved response)
     = match parseResponse parseBody (field options "disableBodyParser")
               response with
       | Resolved record => Resolved record
       | Rejected e => catchNotFoundOrThrow e
       end) /\
  (forall response b,
     get_prop response "body" = Resolved b ->
     get_prop response "headers" = Resolved VUndefined ->
     settle_through hs (Resolved response) = catchNotFoundOrThrow TypeError).
Proof.
  intros H.
  unfold getRecord in H. strip_guards H.
  injection H as _ <-.
  split; [| split].
  - intros e. reflexivity.
  - intros response. unfold settle_through; simpl.
    destruct (parseResponse parseBody _ response); reflexivity.
  - intros response b Hb Hh. unfold settle_through; simpl.
    unfold parseResponse. rewrite Hb, Hh. reflexivity.
Qed.

(** X5.  [getRecord] and [deleteRecord] address the very URL to which
    [putRecord] uploads directly, and [putRecord] asks for its signed URL
    one segment below it; [deleteRecord] returns the answer of the
    transport as it is. *)
Theorem record_operations_share_url (o : Options) (gz : list byte)
    d1 hs1 d2 hs2 :
  is_string (baseUrl o) = true ->
  is_string (storeId o) = true ->
  is_string (key o) = true ->
  getRecord check catchNotFoundOrThrow parseBody (bag_of_Options o)
    = Requested d1 hs1 ->
  deleteRecord check (bag_of_Options o) = Requested d2 hs2 ->
  lookup "url" d1 = Some (req_url (requestOpts o gz)) /\
  lookup "url" d2 = Some (req_url (requestOpts o gz)) /\
  req_url (signedUrlRequest o)
    = VString (str (req_url (requestOpts o gz)) ++ "/direct-upload-url") /\
  lookup "method" d1 = Some (VString "GET") /\
  lookup "method" d2 = Some (VString "DELETE") /\
  (forall answer, settle_through hs2 answer = answer).
Proof.
  intros _ _ _ H1 H2.
  unfold getRecord in H1. strip_guards H1. injection H1 as <- _.
  unfold deleteRecord in H2. strip_guards H2. injection H2 as <- <-.
  repeat split.
  simpl. rewrite direct_upload_url_of_record. reflexivity.
Qed.

(** X6.  No operation of the module makes its request unless [baseUrl]
    passed its check, and none of the operations on a store or a record
    unless [storeId] passed too; the record operations also need [key]. *)
Theorem requests_only_after_validation options d hs :
  let passed name := check (field options name) name "String" = None in
  (getOrCreateStore check pluckData options = Requested d hs ->
     passed "baseUrl" /\ passed "token" /\ passed "storeName") /\
  (listStores check pluckData options = Requested d hs ->
     passed "baseUrl" /\ passed "token") /\
  (getStore check pluckData catchNotFoundOrThrow options = Requested d hs ->
     passed "baseUrl" /\ passed "storeId") /\
  (deleteStore check options = Requested d hs ->
     passed "baseUrl" /\ passed "storeId") /\
  (getRecord check catchNotFoundOrThrow parseBody options = Requested d hs ->
     passed "baseUrl" /\ passed "storeId" /\ passed "key") /\
  (deleteRecord check options = Requested d hs ->
     passed "baseUrl" /\ passed "storeId" /\ passed "key") /\
  (listKeys check pluckData options = Requested d hs ->
     passed "baseUrl" /\ passed "storeId").
Proof.
  intros passed. unfold passed.
  repeat split;
    match goal with
    | H : _ = Requested _ _ |- _ =>
        first [ unfold getOrCreateStore in H | unfold listStores in H
              | unfold getStore in H | unfold deleteStore in H
              | unfold getRecord in H | unfold deleteRecord in H
              | unfold listKeys in H ];
        strip_guards H; assumption
    end.
Qed.

End StoreProperties.

(** ** More on [putRecord] *)

Section UploadProperties.

Variable World : Type.
Variable transport : request -> World -> outcome value * World.
Variable gzip : value -> list byte.

Implicit Types (options : Options) (st : state World).

(** The events and the result of a call that passes validation. *)
Lemma putRecord_valid_run options st :
  validate options = None ->
  let gz := gzip (body options) in
  let direct := requestOpts options gz in
  let get := signedUrlRequest options in
  (Z.of_nat (List.length gz) < SIGNED_URL_UPLOAD_MIN_BYTESIZE /\
   events transport gzip options st
     = [EGzip (body options);
        ERequest direct (fst (transport direct (world st)))] /\
   putRecord transport gzip options st
     = (Promise (fst (transport direct (world st))),
        mkState (snd (transport direct (world st)))
                (log st ++ [EGzip (body options);
                            ERequest direct (fst (transport direct (world st)))])))
  \/
  (SIGNED_URL_UPLOAD_MIN_BYTESIZE <= Z.of_nat (List.length gz) /\
   exists e w,
     transport get (world st) = (Rejected e, w) /\
     events transport gzip options st
       = [EGzip (body options); ERequest get (Rejected e)] /\
     putRecord transport gzip options st
       = (Promise (Rejected e),
          mkState w (log st ++ [EGzip (body options);
                                ERequest get (Rejected e)])))
  \/
  (SIGNED_URL_UPLOAD_MIN_BYTESIZE <= Z.of_nat (List.length gz) /\
   exists response e w,
     transport get (world st) = (Resolved response, w) /\
     signedUrl_of response = Rejected e /\
     events transport gzip options st
       = [EGzip (body options); ERequest get (Resolved response)] /\
     putRecord transport gzip options st
       = (Promise (Rejected e),
          mkState w (log st ++ [EGzip (body options);
                                ERequest get (Resolved response)])))
  \/
  (SIGNED_URL_UPLOAD_MIN_BYTESIZE <= Z.of_nat (List.length gz) /\
   exists response u w,
     transport get (world st) = (Resolved response, w) /\
     signedUrl_of response = Resolved u /\
     events transport gzip options st
       = [EGzip (body options); ERequest get (Resolved response);
          ERequest (assign_url direct u)
                   (fst (transport (assign_url direct u) w))] /\
     putRecord transport gzip options st
       = (Promise (fst (transport (assign_url direct u) w)),
          mkState (snd (transport (assign_url direct u) w))
                  (log st ++ [EGzip (body options);
                              ERequest get (Resolved response);
                              ERequest (assign_url direct u)
                                (fst (transport (assign_url direct u) w))]))).
Proof.
  intros Hv gz direct get.
  destruct (Z_lt_ge_dec (Z.of_nat (List.length gz))
                        SIGNED_URL_UPLOAD_MIN_BYTESIZE) as [Hlt|Hge].
  - left. pose proof (putRecord_small Hv Hlt (transport := transport)
                        (st := st)) as Hp.
    split; [exact Hlt|]. split; [| exact Hp].
    apply events_of_log. rewrite Hp. reflexivity.
  - right. apply Z.ge_le in Hge.
    destruct (transport get (world st)) as [[response|e] w] eqn:Ht.
    + destruct (signedUrl_of response) as [u|e] eqn:Hs.
      * right. right. split; [exact Hge|].
        pose proof (putRecord_large_put Hv Hge Ht Hs) as Hp.
        exists response, u, w. repeat split; try assumption.
        apply events_of_log. rewrite Hp. reflexivity.
      * right. left. split; [exact Hge|].
        pose proof (putRecord_large_unreadable Hv Hge Ht Hs) as Hp.
        exists response, e, w. repeat split; try assumption.
        apply events_of_log. rewrite Hp. reflexivity.
    + left. split; [exact Hge|].
      pose proof (putRecord_large_rejected Hv Hge Ht) as Hp.
      exists e, w. repeat split; try assumption.
      apply events_of_log. rewrite Hp. reflexivity.
Qed.

(** X7.  A call that passes validation compresses the body exactly once,
    as it was given, before anything is sent: its first event is that
    compression and all the events after it, at least one, are requests. *)
Theorem putRecord_compresses_once_before_sending options st :
  validate options = None ->
  exists rest,
    events transport gzip options st = EGzip (body options) :: rest /\
    rest <> [] /\
    (forall ev, In ev rest -> exists r o, ev = ERequest r o) /\
    requests rest = calls transport gzip options st.
Proof.
  intros Hv. unfold calls.
  destruct (putRecord_valid_run options st Hv)
    as [(_ & -> & _)
       | [(_ & e & w & _ & -> & _)
         | [(_ & response & e & w & _ & _ & -> & _)
           | (_ & response & u & w & _ & _ & -> & _)]]];
    eexists; (split; [reflexivity|]); (split; [discriminate|]);
    (split; [| reflexivity]);
    intros ev Hin; simpl in Hin;
    repeat (destruct Hin as [<- | Hin]; [eauto|]); contradiction.
Qed.

(** X8.  [putRecord] adds no handling of its own to the result: a call
    that passes validation settles exactly as its last request did, except
    when that request is the signed-URL request and it was answered; then,
    and only then, the call fails with the TypeError of reading
    [response.data.signedUrl] instead of settling as that request did.  A
    call never ends at an answered signed-URL request whose URL could be
    read. *)
Theorem putRecord_settles_as_its_last_request options st :
  validate options = None ->
  exists pre r o,
    events transport gzip options st = (pre ++ [ERequest r o])%list /\
    ((req_method r = "PUT" /\
      fst (putRecord transport gzip options st) = Promise o)
     \/
     (r = signedUrlRequest options /\ req_method r = "GET" /\
      exists e,
        o = Rejected e /\
        fst (putRecord transport gzip options st) = Promise (Rejected e))
     \/
     (r = signedUrlRequest options /\ req_method r = "GET" /\
      exists response,
        o = Resolved response /\
        signedUrl_of response = Rejected TypeError /\
        fst (putRecord transport gzip options st)
          = Promise (Rejected TypeError) /\
        fst (putRecord transport gzip options st) <> Promise o)).
Proof.
  intros Hv.
  destruct (putRecord_valid_run options st Hv)
    as [(_ & Hev & Hp)
       | [(_ & e & w & _ & Hev & Hp)
         | [(_ & response & e & w & _ & Hs & Hev & Hp)
           | (_ & response & u & w & _ & _ & Hev & Hp)]]];
    rewrite Hev, Hp.
  - exists [EGzip (body options)]. eexists _, _.
    split; [reflexivity|]. left. split; reflexivity.
  - exists [EGzip (body options)]. eexists _, _.
    split; [reflexivity|]. right. left.
    split; [reflexivity|]. split; [reflexivity|].
    exists e. split; reflexivity.
  - exists [EGzip (body options)]. eexists _, _.
    split; [reflexivity|]. right. right.
    split; [reflexivity|]. split; [reflexivity|].
    exists response.
    destruct (signedUrl_of_rejected _ _ Hs) as [-> _].
    split; [reflexivity|]. split; [exact Hs|].
    split; [reflexivity|]. simpl. discriminate.
  - exists [EGzip (body options);
            ERequest (signedUrlRequest options) (Resolved response)].
    eexists _, _. split; [reflexivity|]. left. split; reflexivity.
Qed.

(** X9.  The remote state is passed on from request to request: the PUT to
    the signed URL is served in the state the signed-URL request left, and
    the call leaves the state its last request left; a call that throws
    leaves the state as it found it. *)
Theorem putRecord_threads_the_remote_state options st :
  (forall e, validate options = Some e ->
     world (snd (putRecord transport gzip options st)) = world st) /\
  (validate options = None ->
   let gz := gzip (body options) in
   let direct := requestOpts options gz in
   let get := signedUrlRequest options in
   world (snd (putRecord transport gzip options st))
   = if Z.of_nat (List.length gz) <? SIGNED_URL_UPLOAD_MIN_BYTESIZE
     then snd (transport direct (world st))
     else
       match transport get (world st) with
       | (Resolved response, w) =>
           match signedUrl_of response with
           | Resolved u => snd (transport (assign_url direct u) w)
           | Rejected _ => w
           end
       | (Rejected _, w) => w
       end).
Proof.
  split.
  - intros e He. rewrite (putRecord_invalid He). reflexivity.
  - intros Hv gz direct get. subst gz direct get.
    destruct (putRecord_valid_run options st Hv)
      as [(Hlt & _ & Hp)
         | [(Hge & e & w & Ht & _ & Hp)
           | [(Hge & response & e & w & Ht & Hs & _ & Hp)
             | (Hge & response & u & w & Ht & Hs & _ & Hp)]]];
      rewrite Hp; cbn [snd world].
    + apply Z.ltb_lt in Hlt. rewrite Hlt. reflexivity.
    + apply Z.ltb_ge in Hge. rewrite Hge, Ht. reflexivity.
    + apply Z.ltb_ge in Hge. rewrite Hge, Ht, Hs. reflexivity.
    + apply Z.ltb_ge in Hge. rewrite Hge, Ht, Hs. reflexivity.
Qed.

End UploadProperties.

(** ** The acts operations *)

Lemma replace_first_slash_no_slash (s : string) :
  Acts.count_slash s = 0%nat -> Acts.replace_first_slash s = s.
Proof.
  induction s as [|c s IH]; simpl; [reflexivity|].
  destruct (Ascii.eqb c "/"); simpl; [discriminate|].
  intros H. rewrite (IH H). reflexivity.
Qed.

Lemma replace_first_slash_app (a b : string) :
  Acts.count_slash a = 0%nat ->
  Acts.replace_first_slash (a ++ String "/" b) = a ++ String "~" b.
Proof.
  induction a as [|c a IH]; simpl; [reflexivity|].
  destruct (Ascii.eqb c "/"); simpl; [discriminate|].
  intros H. rewrite (IH H). reflexivity.
Qed.

Lemma replaceSlashWithTilde_first_slash (a b : string) :
  Acts.count_slash a = 0%nat ->
  Acts.replaceSlashWithTilde (VString (a ++ "/" ++ b))
  = Resolved (VString (a ++ "~" ++ b)).
Proof.
  intros H. unfold Acts.replaceSlashWithTilde.
  change ("/" ++ b) with (String "/" b).
  change ("~" ++ b) with (String "~" b).
  rewrite (replace_first_slash_app a b H). reflexivity.
Qed.

(** X10.  [replaceSlashWithTilde] replaces the first slash and nothing
    else: what precedes it and all that follows, later slashes included, is
    kept, and a string without a slash comes back unchanged. *)
Theorem replaceSlashWithTilde_replaces_first_slash_only (a b : string) :
  Acts.count_slash a = 0%nat ->
  Acts.replaceSlashWithTilde (VString (a ++ "/" ++ b))
    = Resolved (VString (a ++ "~" ++ b)) /\
  Acts.replaceSlashWithTilde (VString a) = Resolved (VString a).
Proof.
  intros H. split.
  - apply replaceSlashWithTilde_first_slash, H.
  - unfold Acts.replaceSlashWithTilde.
    rewrite (replace_first_slash_no_slash a H). reflexivity.
Qed.

(** X11.  The result of [replaceSlashWithTilde] is as long as its argument
    and has one slash less, when there was one: an id with two slashes
    still has a slash afterwards.  Anything but a string is a TypeError. *)
Theorem replaceSlashWithTilde_removes_one_slash (v : value) :
  match v with
  | VString s =>
      exists s',
        Acts.replaceSlashWithTilde v = Resolved (VString s') /\
        String.length s' = String.length s /\
        Acts.count_slash s' = Nat.pred (Acts.count_slash s)
  | _ => Acts.replaceSlashWithTilde v = Rejected TypeError
  end.
Proof.
  destruct v; try reflexivity.
  exists (Acts.replace_first_slash s). split; [reflexivity|].
  induction s as [|c s [IHl IHc]]; simpl; [split; reflexivity|].
  destruct (Ascii.eqb c "/") eqn:E; simpl.
  - split; reflexivity.
  - rewrite E. simpl. split; [f_equal; exact IHl | exact IHc].
Qed.

Section ActProperties.

Variable check : value -> string -> string -> option error.
Variable pluckData : value -> outcome value.
Variable catchNotFoundOrThrow : error -> outcome value.
Variable JSON_parse : value -> outcome value.
Variable omit : value -> string -> value.

Implicit Types (options : bag) (d : bag) (hs : list handler).

(** X12.  [updateAct] works out the act id before it validates anything:
    without a truthy [actId], a missing [act], or an [act] without a truthy
    [id] next to an [actId] that is not a string, makes the call throw a
    TypeError, whatever the checks would have said. *)
Theorem updateAct_throws_TypeError_before_validation options :
  truthy (field options "actId") = false ->
  is_missing (field options "act") = true \/
  (is_string (field options "actId") = false /\
   exists id, get_prop (field options "act") "id" = Resolved id /\
              truthy id = false) ->
  Acts.updateAct check pluckData omit options = Thrown TypeError.
Proof.
  intros Hid H. unfold Acts.updateAct, Acts.updateAct_id. rewrite Hid.
  destruct H as [H | (Hs & id & Hget & Hf)].
  - destruct (field options "act"); try discriminate; reflexivity.
  - rewrite Hget, Hf. simpl.
    destruct (field options "actId"); try discriminate; reflexivity.
Qed.

(** X13.  [updateAct] addresses the act named by [actId] when that is a
    non-empty string, whatever [act.id] is, and the act named by [act.id]
    when [actId] is falsy and [act.id] is a non-empty string; either way
    with the first slash of the id replaced, and the id is what is checked
    under the name [actId]. *)
Theorem updateAct_prefers_actId options d hs (b i : string) :
  field options "baseUrl" = VString b ->
  (field options "actId" = VString i \/
   (truthy (field options "actId") = false /\
    get_prop (field options "act") "id" = Resolved (VString i))) ->
  i <> "" ->
  Acts.updateAct check pluckData omit options = Requested d hs ->
  lookup "url" d
    = Some (VString ("" ++ b ++ "/v2/acts" ++ "/" ++ Acts.replace_first_slash i))
  /\ check (VString (Acts.replace_first_slash i)) "actId" "String" = None
  /\ lookup "body" d = Some (omit (field options "act") "id")
  /\ lookup "method" d = Some (VString "PUT").
Proof.
  intros Hb Hid Hi H.
  assert (Hti : truthy (VString i) = true).
  { simpl. destruct (String.eqb_spec i ""); [contradiction | reflexivity]. }
  assert (Hchoice : Acts.updateAct_id (field options "actId")
                      (field options "act") = Resolved (VString i)).
  { unfold Acts.updateAct_id.
    destruct Hid as [-> | [Hf Hget]].
    - rewrite Hti. reflexivity.
    - rewrite Hf, Hget, Hti. reflexivity. }
  unfold Acts.updateAct in H. rewrite Hchoice in H. simpl in H.
  strip_guards H. injection H as <- _.
  rewrite Hb. repeat split. assumption.
Qed.

(** X14.  [getAct] and [deleteAct] address the same URL, in which the id
    [user/name] appears as [user~name]. *)
Theorem getAct_url_has_tilde options d1 hs1 d2 hs2 (b user name : string) :
  field options "baseUrl" = VString b ->
  field options "actId" = VString (user ++ "/" ++ name) ->
  Acts.count_slash user = 0%nat ->
  Acts.getAct check pluckData catchNotFoundOrThrow options = Requested d1 hs1 ->
  Acts.deleteAct check options = Requested d2 hs2 ->
  lookup "url" d1
    = Some (VString ("" ++ b ++ "/v2/acts" ++ "/" ++ user ++ "~" ++ name)) /\
  lookup "url" d2 = lookup "url" d1 /\
  hs1 = [Then pluckData; Catch catchNotFoundOrThrow] /\
  hs2 = [].
Proof.
  intros Hb Hid Hu H1 H2.
  assert (Hsafe : Acts.replaceSlashWithTilde (VString (user ++ "/" ++ name))
                  = Resolved (VString (user ++ "~" ++ name))).
  { apply replaceSlashWithTilde_first_slash; exact Hu. }
  unfold Acts.getAct in H1. strip_guards H1.
  rewrite Hid, Hsafe in H1. simpl in H1. injection H1 as <- <-.
  unfold Acts.deleteAct in H2. strip_guards H2.
  rewrite Hid, Hsafe in H2. simpl in H2. injection H2 as <- <-.
  rewrite Hb. repeat split.
Qed.

(** X15.  [runAct] checks and sends the body only when it is truthy: a
    missing or empty-string body is left out of the request without being
    checked, a truthy body that fails its check makes the call throw, and
    one that passes is sent as it is.  The [Content-Type] header is set
    only for a truthy [contentType]. *)
Theorem runAct_checks_body_only_when_truthy options (a : string) :
  let passed name type := check (field options name) name type = None in
  let body := field options "body" in
  let contentType := field options "contentType" in
  passed "baseUrl" "String" ->
  passed "actId" "String" ->
  passed "token" "Maybe String" ->
  passed "contentType" "Maybe String" ->
  passed "waitForFinish" "Maybe Number" ->
  passed "timeout" "Maybe Number" ->
  passed "memory" "Maybe Number" ->
  passed "build" "Maybe String" ->
  field options "actId" = VString a ->
  let sends d :=
    lookup "headers" d
      = (if truthy contentType
         then Some (VObject [("Content-Type", contentType)])
         else None) /\
    lookup "method" d = Some (VString "POST") in
  (truthy body = false ->
     exists d,
       Acts.runAct check pluckData JSON_parse options
         = Requested d [Then JSON_parse; Then pluckData] /\
       lookup "body" d = None /\ sends d) /\
  (truthy body = true ->
     forall e, check body "body" "Buffer | String" = Some e ->
     Acts.runAct check pluckData JSON_parse options = Thrown e) /\
  (truthy body = true ->
     check body "body" "Buffer | String" = None ->
     exists d,
       Acts.runAct check pluckData JSON_parse options
         = Requested d [Then JSON_parse; Then pluckData] /\
       lookup "body" d = Some body /\ sends d).
Proof.
  intros passed body contentType H1 H2 H3 H4 H5 H6 H7 H8 Hid sends.
  unfold passed in *. unfold Acts.runAct, sends.
  rewrite H1, H2, H3, H4, H5, H6, H7, H8, Hid. simpl.
  fold body contentType.
  split; [| split].
  - intros Hb. rewrite Hb.
    eexists. split; [reflexivity|].
    rewrite !lookup_set_if. simpl.
    rewrite andb_false_r, andb_true_r. repeat split.
  - intros Hb e Hc. rewrite Hb, Hc. reflexivity.
  - intros Hb Hc. rewrite Hb, Hc. simpl.
    eexists. split; [reflexivity|].
    rewrite !lookup_set_prop, !lookup_set_if. simpl.
    rewrite andb_true_r, andb_false_r. repeat split.
Qed.

(** X16.  [runAct] sends the token only when there is one, and drops
    [waitForFinish], [timeout] and [memory] when they are 0 and [build]
    when it is empty: every parameter of its query is truthy. *)
Theorem runAct_query_is_truthy options d hs :
  Acts.runAct check pluckData JSON_parse options = Requested d hs ->
  let q := Acts.runAct_query options in
  let sent name :=
    lookup name q = (if truthy (field options name)
                     then Some (field options name) else None) in
  lookup "qs" d = Some (VObject q) /\
  sent "token" /\ sent "waitForFinish" /\ sent "timeout" /\
  sent "memory" /\ sent "build" /\
  (forall k v, lookup k q = Some v -> truthy v = true /\ v = field options k).
Proof.
  intros H q sent. unfold sent, q.
  split.
  { unfold Acts.runAct in H. strip_guards H.
    apply bind_throw_Requested in H as (safeActId & _ & H).
    destruct (truthy (field options "body")).
    - apply guard_Requested in H as [_ H]. injection H as <- _.
      rewrite lookup_set_prop, lookup_set_if. simpl.
      rewrite andb_false_r. reflexivity.
    - injection H as <- _. rewrite lookup_set_if. simpl.
      rewrite andb_false_r. reflexivity. }
  unfold Acts.runAct_query.
  do 5 (split; [rewrite !lookup_set_if; simpl;
                rewrite ?andb_false_r, ?andb_true_r; reflexivity|]).
  intros k v Hk. rewrite !lookup_set_if in Hk. simpl in Hk.
  repeat match type of Hk with
  | (if ?c && String.eqb k ?n then _ else _) = _ =>
      let E := fresh "E" in
      destruct (c && String.eqb k n) eqn:E;
      [ apply andb_prop in E as [T E]; apply String.eqb_eq in E;
        injection Hk as <-; subst k; split; [exact T | reflexivity] | ]
  end.
  discriminate.
Qed.

End ActProperties.

(** ** The operations on the sample bags *)

(** [listStores] with [limit: 0], [offset: 20], [desc: true]. *)
Lemma page_options_query :
  (exists d hs,
     listStores sample_check sample_pluckData page_options = Requested d hs) /\
  listStores_query page_options
    = [("token", VString "secret"); ("offset", VNumber 20);
       ("desc", VNumber 1)] /\
  lookup "limit" (listStores_query page_options) = None /\
  lookup "offset" (listStores_query page_options) = Some (VNumber 20) /\
  lookup "desc" (listStores_query page_options) = Some (VNumber 1).
Proof.
  split; [eexists _, _; reflexivity|]. split; [reflexivity|].
  destruct (listStores_sends_only_truthy_paging
              sample_check sample_pluckData page_options _ _ eq_refl)
    as (_ & _ & Hlimit & Hoffset & Hdesc & _).
  split; [exact Hlimit|]. split; [exact Hoffset | exact Hdesc].
Defined.

(** [listKeys] with a token and an empty start key in the bag. *)
Lemma keys_options_query :
  (exists d hs,
     listKeys sample_check sample_pluckData keys_options = Requested d hs) /\
  lookup "token" (listKeys_query keys_options) = None /\
  lookup "exclusiveStartKey" (listKeys_query keys_options) = None /\
  lookup "limit" (listKeys_query keys_options) = Some (VNumber 10).
Proof.
  split; [eexists _, _; reflexivity|].
  destruct (listKeys_sends_no_token
              sample_check sample_pluckData keys_options _ _ eq_refl)
    as (_ & Htoken & Hstart & Hlimit & _).
  split; [exact Htoken|]. split; [exact Hstart | exact Hlimit].
Defined.

(** [getRecord] with [disableBodyParser], under a body parser that always
    fails: the record comes back all the same. *)
Lemma raw_record_is_returned :
  exists d hs,
    getRecord sample_check sample_catchNotFound sample_parseBody
      raw_record_options = Requested d hs /\
    settle_through hs (Resolved record_response)
    = Resolved (VObject [("contentType", VString "text/plain");
                         ("body", VBuffer [x62; x61; x72])]).
Proof.
  eexists _, _. split; [reflexivity|].
  apply (getRecord_raw_body
           sample_check sample_catchNotFound sample_parseBody
           raw_record_options _ _ record_response
           (VBuffer [x62; x61; x72])
           [("content-type", VString "text/plain")]
           eq_refl eq_refl eq_refl eq_refl).
Defined.

(** A response without headers ends in the not-found handler, which here
    resolves with [null]. *)
Lemma record_without_headers :
  exists d hs,
    getRecord sample_check sample_catchNotFound sample_parseBody
      raw_record_options = Requested d hs /\
    settle_through hs (Resolved (VObject [("body", VString "bar")]))
    = Resolved VNull /\
    settle_through hs (Rejected (TransportFailure (VNumber 500)))
    = Resolved VNull.
Proof.
  eexists _, _. split; [reflexivity|].
  destruct (getRecord_failures_reach_the_not_found_handler
              sample_check sample_catchNotFound sample_parseBody
              raw_record_options _ _ eq_refl)
    as (Hfail & _ & Hheaders).
  split.
  - apply (Hheaders (VObject [("body", VString "bar")]) (VString "bar"));
      reflexivity.
  - apply Hfail.
Defined.

(** The record [foo] of [store1] is read, written and deleted at one URL. *)
Lemma foo_bar_record_url :
  exists d1 hs1 d2 hs2,
    getRecord sample_check sample_catchNotFound sample_parseBody
      (bag_of_Options foo_bar) = Requested d1 hs1 /\
    deleteRecord sample_check (bag_of_Options foo_bar) = Requested d2 hs2 /\
    lookup "url" d1
      = Some (VString "https://api.example/v2/key-value-stores/store1/records/foo") /\
    lookup "url" d2 = Some (req_url (requestOpts foo_bar [x1f; x8b; x08])).
Proof.
  eexists _, _, _, _. split; [reflexivity|]. split; [reflexivity|].
  destruct (record_operations_share_url
              sample_check sample_catchNotFound sample_parseBody
              foo_bar [x1f; x8b; x08] _ _ _ _
              eq_refl eq_refl eq_refl eq_refl eq_refl)
    as (Hget & Hdelete & _).
  split; [exact Hget | exact Hdelete].
Defined.

(** The direct upload of [foo_bar]: the compression, then the PUT. *)
Lemma foo_bar_compressed_first :
  validate foo_bar = None /\
  exists rest,
    events accepting_transport gzip_small foo_bar fresh
      = EGzip (VString "bar") :: rest /\
    rest <> [] /\
    requests rest = calls accepting_transport gzip_small foo_bar fresh.
Proof.
  split; [reflexivity|].
  destruct (putRecord_compresses_once_before_sending
              served accepting_transport gzip_small foo_bar fresh eq_refl)
    as (rest & Hev & Hne & _ & Hreq).
  exists rest. split; [exact Hev|]. split; [exact Hne | exact Hreq].
Defined.

(** With the service down, the direct upload of [foo_bar] fails as its PUT
    did; with an answer without [data], the large upload fails with the
    TypeError although its last request succeeded. *)
Lemma foo_bar_fails_as_its_put :
  validate foo_bar = None /\
  fst (putRecord failing_transport gzip_small foo_bar fresh)
    = Promise (Rejected (TransportFailure (VNumber 503))) /\
  exists pre r o,
    events no_data_transport gzip_boundary foo_bar fresh
      = (pre ++ [ERequest r o])%list /\
    o = Resolved (VObject []) /\
    fst (putRecord no_data_transport gzip_boundary foo_bar fresh)
      = Promise (Rejected TypeError).
Proof.
  split; [reflexivity|]. split; [reflexivity|].
  destruct (putRecord_settles_as_its_last_request
              served no_data_transport gzip_boundary foo_bar fresh eq_refl)
    as (pre & r & o & Hev & H).
  exists pre, r, o. split; [exact Hev|].
  pose proof (putRecord_large_unreadable
                (transport := no_data_transport) (gzip := gzip_boundary)
                (options := foo_bar) (st := fresh)
                (response := VObject []) (e := TypeError) (w := 1%nat)
                eq_refl (gzip_boundary_threshold _) eq_refl eq_refl) as Hp.
  assert (Hev' : events no_data_transport gzip_boundary foo_bar fresh
                 = ([EGzip (body foo_bar)]
                    ++ [ERequest (signedUrlRequest foo_bar)
                          (Resolved (VObject []))])%list).
  { apply events_of_log. rewrite Hp. reflexivity. }
  rewrite Hev' in Hev. apply app_inj_tail in Hev as [_ Hlast].
  injection Hlast as _ <-.
  split; [reflexivity|]. rewrite Hp. reflexivity.
Defined.

(** [user/my-act/v2]: the second slash stays. *)
Lemma nested_id_keeps_second_slash :
  Acts.count_slash "user" = 0%nat /\
  Acts.replaceSlashWithTilde (VString "user/my-act/v2")
    = Resolved (VString "user~my-act/v2") /\
  Acts.replaceSlashWithTilde (VString "user") = Resolved (VString "user").
Proof.
  split; [reflexivity|].
  apply (replaceSlashWithTilde_replaces_first_slash_only
           "user" "my-act/v2" eq_refl).
Defined.

(** [updateAct] without any id, under a checker that rejects everything:
    the TypeError comes first. *)
Lemma update_without_id_throws_TypeError :
  truthy (field update_without_id "actId") = false /\
  Acts.updateAct strict_check sample_pluckData (fun v _ => v)
    update_without_id = Thrown TypeError.
Proof.
  split; [reflexivity|].
  apply (updateAct_throws_TypeError_before_validation
           strict_check sample_pluckData (fun v _ => v)
           update_without_id eq_refl).
  right. split; [reflexivity|].
  exists VUndefined. split; reflexivity.
Defined.

(** [updateAct({ actId: 'user/my-act', act: { id: 'other', ... } })]: the
    [actId] wins over [act.id]. *)
Lemma update_with_both_ids :
  let options :=
    [("baseUrl", VString "https://api.example");
     ("token", VString "secret");
     ("actId", VString "user/my-act");
     ("act", VObject [("id", VString "other"); ("name", VString "x")])] in
  exists d hs,
    Acts.updateAct sample_check sample_pluckData (fun v _ => v) options
      = Requested d hs /\
    lookup "url" d
      = Some (VString "https://api.example/v2/acts/user~my-act").
Proof.
  intros options. eexists _, _. split; [reflexivity|].
  destruct (updateAct_prefers_actId
              sample_check sample_pluckData (fun v _ => v) options _ _
              "https://api.example" "user/my-act"
              eq_refl (or_introl eq_refl)
              (fun E : "user/my-act" = "" =>
                 eq_ind "user/my-act"
                   (fun s => match s with
                             | EmptyString => False
                             | String _ _ => True
                             end) I "" E)
              eq_refl)
    as (Hurl & _).
  exact Hurl.
Defined.

(** [getAct] and [deleteAct] of [user/my-act]. *)
Lemma act_options_url :
  exists d1 hs1 d2 hs2,
    Acts.getAct sample_check sample_pluckData sample_catchNotFound act_options
      = Requested d1 hs1 /\
    Acts.deleteAct sample_check act_options = Requested d2 hs2 /\
    lookup "url" d1
      = Some (VString "https://api.example/v2/acts/user~my-act") /\
    lookup "url" d2 = lookup "url" d1.
Proof.
  eexists _, _, _, _. split; [reflexivity|]. split; [reflexivity|].
  destruct (getAct_url_has_tilde
              sample_check sample_pluckData sample_catchNotFound
              act_options _ _ _ _ "https://api.example" "user" "my-act"
              eq_refl eq_refl eq_refl eq_refl eq_refl)
    as (Hget & Hdelete & _).
  split; [exact Hget | exact Hdelete].
Defined.

(** [runAct] with an empty body: the sample checker would refuse such a
    body, but it is not asked. *)
Lemma run_options_sends_no_body :
  sample_check (field run_options "body") "body" "Buffer | String"
    = Some (InvalidParameter "body" "Buffer | String") /\
  exists d,
    Acts.runAct sample_check sample_pluckData sample_pluckData run_options
      = Requested d [Then sample_pluckData; Then sample_pluckData] /\
    lookup "body" d = None /\
    lookup "headers" d = None.
Proof.
  split; [reflexivity|].
  destruct (runAct_checks_body_only_when_truthy
              sample_check sample_pluckData sample_pluckData
              run_options "user/my-act"
              eq_refl eq_refl eq_refl eq_refl eq_refl eq_refl eq_refl
              eq_refl eq_refl)
    as (Hfalsy & _).
  destruct (Hfalsy eq_refl) as (d & Hrun & Hbody & Hheaders & _).
  exists d. split; [exact Hrun|]. split; [exact Hbody | exact Hheaders].
Defined.

(** [runAct] with [timeout: 0] and no token: an empty query. *)
Lemma run_with_zero_timeout :
  let options := ("timeout", VNumber 0) :: run_options in
  (exists d hs,
     Acts.runAct sample_check sample_pluckData sample_pluckData options
       = Requested d hs) /\
  lookup "timeout" (Acts.runAct_query options) = None /\
  lookup "token" (Acts.runAct_query options) = None.
Proof.
  intros options. split; [eexists _, _; reflexivity|].
  destruct (runAct_query_is_truthy
              sample_check sample_pluckData sample_pluckData
              options _ _ eq_refl)
    as (_ & Htoken & _ & Htimeout & _).
  split; [exact Htimeout | exact Htoken].
Defined.
